(** * LoadLoraModelFromReplicateWeight: URL resolution and cached fetch

    A shallow embedding of [nodes.py]: the helpers [download_file],
    [get_filename_from_url], [find_or_create_cache], the resolver
    [get_lora_from_url] and the node method
    [load_lora_model_only_from_url], together with the properties the
    specification states about them.

    Modelling conventions.
    - A Python [str] is a Rocq [string], a sequence of 8-bit characters.  The
      model is exact on ASCII text; outside ASCII a [string] stands for the
      UTF-8 encoding of the text, on which [lower] and [strip] act on the
      ASCII range only.
    - Exceptions are values of [exn]; a computation is a function from the
      world to a result and the world it leaves behind, so that effects
      performed before an exception is raised are kept.
    - The file system is a finite map from path to node, the process
      environment a finite map from name to value, and the network an oracle
      from URL to outcome. *)

From Stdlib Require Import ZArith Ascii String List Lia Bool DecimalString.
From Stdlib Require PrimFloat.
From stdpp Require Import base option gmap strings list.

Local Open Scope Z_scope.
Local Open Scope stdpp_scope.

(** ** Python string operations *)

Module PyStr.

(** [s.startswith(p)] *)
Fixpoint startswith (s p : string) : bool :=
  match p with
  | EmptyString => true
  | String c p' =>
      match s with
      | EmptyString => false
      | String d s' => Ascii.eqb c d && startswith s' p'
      end
  end.

(** [s.endswith(suf)]: [s] ends with [suf] when it is [suf] or its tail
    ends with [suf]. *)
Fixpoint endswith (s suf : string) : bool :=
  String.eqb s suf ||
  match s with
  | EmptyString => false
  | String _ s' => endswith s' suf
  end.

(** [sub in s] *)
Fixpoint contains (sub s : string) : bool :=
  startswith s sub ||
  match s with
  | EmptyString => false
  | String _ s' => contains sub s'
  end.

(** [s.lower()] on the ASCII range. *)
Definition lower_char (c : ascii) : ascii :=
  let n := nat_of_ascii c in
  if (65 <=? n)%nat && (n <=? 90)%nat then ascii_of_nat (n + 32) else c.

Fixpoint lower (s : string) : string :=
  match s with
  | EmptyString => EmptyString
  | String c s' => String (lower_char c) (lower s')
  end.

(** The ASCII characters for which [str.isspace] holds: tab, line feed,
    vertical tab, form feed, carriage return, the four separators
    0x1c-0x1f and the space. *)
Definition is_space (c : ascii) : bool :=
  let n := nat_of_ascii c in
  ((9 <=? n)%nat && (n <=? 13)%nat) || ((28 <=? n)%nat && (n <=? 32)%nat).

Fixpoint lstrip (s : string) : string :=
  match s with
  | EmptyString => EmptyString
  | String c s' => if is_space c then lstrip s' else s
  end.

Fixpoint rstrip (s : string) : string :=
  match s with
  | EmptyString => EmptyString
  | String c s' =>
      match rstrip s' with
      | EmptyString => if is_space c then EmptyString else String c EmptyString
      | r => String c r
      end
  end.

(** [s.strip()] *)
Definition strip (s : string) : string := rstrip (lstrip s).

(** [s.replace(old, new)] for a non-empty [old]: occurrences are found
    left to right and do not overlap.  [skip] counts the characters of a
    matched occurrence that are still to be passed over. *)
Fixpoint replace_from (old new s : string) (skip : nat) : string :=
  match s with
  | EmptyString => EmptyString
  | String c s' =>
      match skip with
      | S k => replace_from old new s' k
      | O =>
          if startswith s old
          then new +:+ replace_from old new s' (String.length old - 1)
          else String c (replace_from old new s' 0)
      end
  end.

Definition replace (s old new : string) : string := replace_from old new s 0.

(** [s.split(sep)] for a non-empty [sep]; the result is never empty. *)
Fixpoint split_from (sep s : string) (skip : nat) : list string :=
  match s with
  | EmptyString => [EmptyString]
  | String c s' =>
      match skip with
      | S k => split_from sep s' k
      | O =>
          if startswith s sep
          then EmptyString :: split_from sep s' (String.length sep - 1)
          else
            match split_from sep s' 0 with
            | h :: t => String c h :: t
            | [] => [String c EmptyString]
            end
      end
  end.

Definition split (s sep : string) : list string := split_from sep s 0.

(** [sep.join(l)] *)
Fixpoint join (sep : string) (l : list string) : string :=
  match l with
  | [] => EmptyString
  | [x] => x
  | x :: l' => x +:+ sep +:+ join sep l'
  end.

(** [s[:-n]] for [n > 0] *)
Definition drop_last (n : nat) (s : string) : string :=
  String.substring 0 (String.length s - n) s.

End PyStr.

Import PyStr.

(** ** MD5, as computed by [hashlib.md5] (RFC 1321)

    Words are 32-bit integers held in [Z], with the wrap-around written
    out. *)

Module MD5.

Definition mask32 : Z := 0xffffffff.
Definition add32 (a b : Z) : Z := Z.land (a + b) mask32.
Definition not32 (a : Z) : Z := Z.lxor a mask32.
Definition rotl32 (x c : Z) : Z :=
  Z.lor (Z.land (Z.shiftl x c) mask32) (Z.shiftr x (32 - c)).

Definition shifts : list Z :=
  [ 7; 12; 17; 22; 7; 12; 17; 22; 7; 12; 17; 22; 7; 12; 17; 22;
    5; 9; 14; 20; 5; 9; 14; 20; 5; 9; 14; 20; 5; 9; 14; 20;
    4; 11; 16; 23; 4; 11; 16; 23; 4; 11; 16; 23; 4; 11; 16; 23;
    6; 10; 15; 21; 6; 10; 15; 21; 6; 10; 15; 21; 6; 10; 15; 21 ].

Definition sines : list Z :=
  [ 0xd76aa478; 0xe8c7b756; 0x242070db; 0xc1bdceee;
    0xf57c0faf; 0x4787c62a; 0xa8304613; 0xfd469501;
    0x698098d8; 0x8b44f7af; 0xffff5bb1; 0x895cd7be;
    0x6b901122; 0xfd987193; 0xa679438e; 0x49b40821;
    0xf61e2562; 0xc040b340; 0x265e5a51; 0xe9b6c7aa;
    0xd62f105d; 0x02441453; 0xd8a1e681; 0xe7d3fbc8;
    0x21e1cde6; 0xc33707d6; 0xf4d50d87; 0x455a14ed;
    0xa9e3e905; 0xfcefa3f8; 0x676f02d9; 0x8d2a4c8a;
    0xfffa3942; 0x8771f681; 0x6d9d6122; 0xfde5380c;
    0xa4beea44; 0x4bdecfa9; 0xf6bb4b60; 0xbebfbc70;
    0x289b7ec6; 0xeaa127fa; 0xd4ef3085; 0x04881d05;
    0xd9d4d039; 0xe6db99e5; 0x1fa27cf8; 0xc4ac5665;
    0xf4292244; 0x432aff97; 0xab9423a7; 0xfc93a039;
    0x655b59c3; 0x8f0ccc92; 0xffeff47d; 0x85845dd1;
    0x6fa87e4f; 0xfe2ce6e0; 0xa3014314; 0x4e0811a1;
    0xf7537e82; 0xbd3af235; 0x2ad7d2bb; 0xeb86d391 ].

Definition at_index (l : list Z) (i : nat) : Z := nth i l 0.

(** The state is the four words (A, B, C, D). *)
Definition state : Type := Z * Z * Z * Z.

Definition init : state := (0x67452301, 0xefcdab89, 0x98badcfe, 0x10325476).

(** One of the 64 operations on the block [M] of sixteen words. *)
Definition operation (M : list Z) (st : state) (i : nat) : state :=
  let '(A, B, C, D) := st in
  let '(F, g) :=
    if (i <? 16)%nat then (Z.lor (Z.land B C) (Z.land (not32 B) D), i)
    else if (i <? 32)%nat then
      (Z.lor (Z.land D B) (Z.land (not32 D) C), ((5 * i + 1) mod 16)%nat)
    else if (i <? 48)%nat then
      (Z.lxor (Z.lxor B C) D, ((3 * i + 5) mod 16)%nat)
    else (Z.lxor C (Z.lor B (not32 D)), ((7 * i) mod 16)%nat) in
  let F := add32 (add32 (add32 F A) (at_index sines i)) (at_index M g) in
  (D, add32 B (rotl32 F (at_index shifts i)), B, C).

Definition process_block (st : state) (M : list Z) : state :=
  let '(a0, b0, c0, d0) := st in
  let '(A, B, C, D) := fold_left (operation M) (seq 0 64) st in
  (add32 a0 A, add32 b0 B, add32 c0 C, add32 d0 D).

(** Little-endian words of a list of bytes. *)
Fixpoint words (bytes : list Z) : list Z :=
  match bytes with
  | b0 :: b1 :: b2 :: b3 :: rest =>
      (b0 + Z.shiftl b1 8 + Z.shiftl b2 16 + Z.shiftl b3 24) :: words rest
  | _ => []
  end.

Definition word_bytes (w : Z) : list Z :=
  [ Z.land w 255; Z.land (Z.shiftr w 8) 255;
    Z.land (Z.shiftr w 16) 255; Z.land (Z.shiftr w 24) 255 ].

(** Padding: a one bit, zeros up to 56 modulo 64, then the length in bits
    as a 64-bit little-endian integer. *)
Definition pad (msg : list Z) : list Z :=
  let n := length msg in
  let zeros := ((119 - n mod 64) mod 64)%nat in
  let bits := (Z.of_nat n * 8) mod 2 ^ 64 in
  msg ++ [128] ++ repeat 0 zeros
      ++ word_bytes (Z.land bits mask32) ++ word_bytes (Z.shiftr bits 32).

Fixpoint blocks (fuel : nat) (ws : list Z) : list (list Z) :=
  match fuel with
  | O => []
  | S fuel' =>
      match ws with
      | [] => []
      | _ => firstn 16 ws :: blocks fuel' (skipn 16 ws)
      end
  end.

Definition digest (msg : list Z) : list Z :=
  let ws := words (pad msg) in
  let '(A, B, C, D) := fold_left process_block (blocks (length ws) ws) init in
  word_bytes A ++ word_bytes B ++ word_bytes C ++ word_bytes D.

Definition hex_chars : list ascii :=
  [ "0"; "1"; "2"; "3"; "4"; "5"; "6"; "7";
    "8"; "9"; "a"; "b"; "c"; "d"; "e"; "f" ]%char.

Definition hex_digit (n : Z) : ascii := nth (Z.to_nat n) hex_chars "0"%char.

Fixpoint hex (bytes : list Z) : string :=
  match bytes with
  | [] => EmptyString
  | b :: rest =>
      String (hex_digit (Z.shiftr b 4)) (String (hex_digit (Z.land b 15)) (hex rest))
  end.

(** [s.encode()] on a string of 8-bit characters. *)
Fixpoint encode (s : string) : list Z :=
  match s with
  | EmptyString => []
  | String c s' => Z.of_nat (nat_of_ascii c) :: encode s'
  end.

(** [hashlib.md5(s.encode()).hexdigest()] *)
Definition hexdigest (s : string) : string := hex (digest (encode s)).

End MD5.

(** ** Exceptions, results and the world *)

Inductive exn : Type :=
| ValueError (msg : string)
| IndexError
| Exception (msg : string)
| RequestException
| FileNotFoundError
| FileExistsError
| NotADirectoryError
| IsADirectoryError
| RecursionError
| HubError (msg : string).

Inductive result (A : Type) : Type :=
| Ok (a : A)
| Raise (e : exn).

Arguments Ok {A} a.
Arguments Raise {A} e.

(** The error classes of the specification. *)
Definition InvalidInputError (e : exn) : bool :=
  match e with ValueError _ => true | _ => false end.

Definition DownloadError (e : exn) : bool :=
  match e with Exception _ => true | _ => false end.

Inductive node : Type :=
| File (content : string)
| Dir.

Inductive http_outcome : Type :=
| Response (status_code : Z) (content : string)
| ConnectionFailed.

Record World : Type := mkWorld {
  fs : gmap string node;
  cwd : string;
  environ : gmap string string;
  http : string -> http_outcome;
  requests_log : list string;
  stdout : list string
}.

Definition set_fs (w : World) (m : gmap string node) : World :=
  mkWorld m (cwd w) (environ w) (http w) (requests_log w) (stdout w).

(** A computation of the program: it runs in a world and leaves a world. *)
Definition py (A : Type) : Type := World -> result A * World.

Definition ret {A : Type} (a : A) : py A := fun w => (Ok a, w).

Definition raise {A : Type} (e : exn) : py A := fun w => (Raise e, w).

Definition bind {A B : Type} (c : py A) (k : A -> py B) : py B :=
  fun w =>
    match c w with
    | (Ok a, w') => k a w'
    | (Raise e, w') => (Raise e, w')
    end.

Definition lift {A : Type} (r : result A) : py A := fun w => (r, w).

Notation "'let!' x ':=' c 'in' k" := (bind c (fun x => k))
  (at level 10, x name, c at level 100, k at level 200).
Notation "'do!' c 'in' k" := (bind c (fun _ => k))
  (at level 10, c at level 100, k at level 200).

(** ** The operating system, the network and the environment

    Paths are the keys of the file system as they are written: the model is
    exact for the normalised absolute paths the program builds (no trailing
    slash, no empty or dot component).  Permissions, links and a full disk
    are left out. *)

(** [os.path.join(a, b)] on POSIX. *)
Definition os_path_join2 (a b : string) : string :=
  if startswith b "/" then b
  else if String.eqb a "" || endswith a "/" then a +:+ b
  else a +:+ "/" +:+ b.

(** [os.path.join(a, *ps)] *)
Definition os_path_join (a : string) (ps : list string) : string :=
  fold_left os_path_join2 ps a.

(** [(p[:i], p[i:])] for [i = p.rfind('/') + 1]. *)
Fixpoint rsplit_slash (p : string) : string * string :=
  match p with
  | EmptyString => (EmptyString, EmptyString)
  | String c p' =>
      match rsplit_slash p' with
      | (EmptyString, t) =>
          if Ascii.eqb c "/" then (String c EmptyString, t)
          else (EmptyString, String c t)
      | (h, t) => (String c h, t)
      end
  end.

(** [s.rstrip('/')] *)
Fixpoint rstrip_slash (s : string) : string :=
  match s with
  | EmptyString => EmptyString
  | String c s' =>
      match rstrip_slash s' with
      | EmptyString => if Ascii.eqb c "/" then EmptyString else String c EmptyString
      | r => String c r
      end
  end.

(** [os.path.split(p)]: the head loses its trailing slashes unless it
    consists of slashes only. *)
Definition os_path_split (p : string) : string * string :=
  let (head, tail) := rsplit_slash p in
  match rstrip_slash head with
  | EmptyString => (head, tail)
  | head' => (head', tail)
  end.

Definition os_path_dirname (p : string) : string := fst (os_path_split p).

Definition os_path_basename (p : string) : string := snd (rsplit_slash p).

Definition path_exists (m : gmap string node) (p : string) : bool :=
  match m !! p with Some _ => true | None => false end.

Definition path_isdir (m : gmap string node) (p : string) : bool :=
  match m !! p with Some Dir => true | _ => false end.

(** The directory an entry [p] is created in: its [dirname], or the working
    directory for a bare name. *)
Definition parent_of (w : World) (p : string) : string :=
  match os_path_dirname p with
  | EmptyString => cwd w
  | d => d
  end.

Definition os_getcwd : py string := fun w => (Ok (cwd w), w).

Definition os_path_exists (p : string) : py bool :=
  fun w => (Ok (path_exists (fs w) p), w).

(** [os.mkdir(p)] *)
Definition os_mkdir (p : string) : py unit :=
  fun w =>
    match fs w !! p with
    | Some _ => (Raise FileExistsError, w)
    | None =>
        match fs w !! parent_of w p with
        | Some Dir => (Ok tt, set_fs w (<[p := Dir]> (fs w)))
        | Some (File _) => (Raise NotADirectoryError, w)
        | None => (Raise FileNotFoundError, w)
        end
    end.

(** [os.makedirs(name, exist_ok=True)], as in CPython: the missing ancestors
    are created first, then [name]; an error of the final [mkdir] is
    swallowed when [name] is a directory.  Every recursive call is on a
    strictly shorter path, so [fuel] above the length of [name] is never
    exhausted. *)
Fixpoint os_makedirs_fuel (fuel : nat) (name : string) : py unit :=
  match fuel with
  | O => raise RecursionError
  | S fuel' =>
      let (head, tail) := os_path_split name in
      let (head, tail) :=
        if String.eqb tail "" then os_path_split head else (head, tail) in
      let final : py unit :=
        fun w =>
          match os_mkdir name w with
          | (Raise e, w') =>
              if path_isdir (fs w') name then (Ok tt, w') else (Raise e, w')
          | r => r
          end in
      fun w =>
        if negb (String.eqb head "") && negb (String.eqb tail "")
           && negb (path_exists (fs w) head)
        then
          match os_makedirs_fuel fuel' head w with
          | (Raise FileExistsError, w') | (Ok tt, w') =>
              if String.eqb tail "." then (Ok tt, w') else final w'
          | r => r
          end
        else final w
  end.

Definition os_makedirs (name : string) : py unit :=
  os_makedirs_fuel (S (String.length name)) name.

(** [with open(filename, 'wb') as file: file.write(content)] *)
Definition write_file (filename content : string) : py unit :=
  fun w =>
    match fs w !! filename with
    | Some Dir => (Raise IsADirectoryError, w)
    | _ =>
        match fs w !! parent_of w filename with
        | Some Dir => (Ok tt, set_fs w (<[filename := File content]> (fs w)))
        | Some (File _) => (Raise NotADirectoryError, w)
        | None => (Raise FileNotFoundError, w)
        end
    end.

(** [requests.get(url, allow_redirects=True)]: the request is recorded and
    the oracle answers. *)
Definition requests_get (url : string) : py (Z * string) :=
  fun w =>
    let w' := mkWorld (fs w) (cwd w) (environ w) (http w)
                      (requests_log w ++ [url]) (stdout w) in
    match http w url with
    | Response status_code content => (Ok (status_code, content), w')
    | ConnectionFailed => (Raise RequestException, w')
    end.

Definition os_environ : py (gmap string string) := fun w => (Ok (environ w), w).

Definition print (msg : string) : py unit :=
  fun w =>
    (Ok tt, mkWorld (fs w) (cwd w) (environ w) (http w) (requests_log w)
                    (stdout w ++ [msg])).

(** [str(n)] for an integer. *)
Definition str_of_int (n : Z) : string := NilZero.string_of_int (Z.to_int n).

(** ** nodes.py *)

Definition download_file (url filename : string) : py unit :=
  do! os_makedirs (os_path_dirname filename) in
  let! response := requests_get url in
  let (status_code, content) := response in
  if status_code =? 200 then write_file filename content
  else raise (Exception ("Failed to download file. Status code: "
                         +:+ str_of_int status_code)).

Definition get_filename_from_url (url extension : string) : string :=
  let filename := MD5.hexdigest url in
  filename +:+ "." +:+ extension.

Definition find_or_create_cache : py string :=
  let! cwd := os_getcwd in
  let! e := os_path_exists (os_path_join cwd ["ComfyUI"]) in
  let cwd := if e then os_path_join cwd ["ComfyUI"] else cwd in
  let! e := os_path_exists (os_path_join cwd ["models"]) in
  let cwd := if e then os_path_join cwd ["models"] else cwd in
  let! e := os_path_exists (os_path_join cwd ["huggingface_cache"]) in
  do! (if negb e then
         do! print "Creating huggingface_cache directory within comfy" in
         os_mkdir (os_path_join cwd ["huggingface_cache"])
       else ret tt) in
  ret (os_path_join cwd ["huggingface_cache"]).

(** The three branches of [get_lora_from_url], in the order of its
    [if]/[elif]/[else]. *)
Inductive provider : Type :=
| NamedRepositoryHost
| MarketplaceHost
| GenericHost.

Definition provider_of (url : string) : provider :=
  if contains "huggingface.co" url then NamedRepositoryHost
  else if contains "civitai.com" url then MarketplaceHost
  else GenericHost.

(** Lines 53-58: the download flag is cut off and a blob URL becomes a
    resolve URL. *)
Definition hf_normalize (url : string) : string :=
  let url :=
    if endswith url "?download=true"
    then drop_last (String.length "?download=true") url else url in
  if contains "/blob/" url then replace url "/blob/" "/resolve/" else url.

(** [parts[5:-1]] *)
Definition subfolder_parts (parts : list string) : list string :=
  firstn (length parts - 1 - 5) (skipn 5 parts).

(** What [hf_hub_download] is called with. *)
Record hf_target : Type := mkTarget {
  repo_id : string;
  subfolder : option string;
  filename : string
}.

(** Lines 62-80, on the normalized URL. *)
Definition hf_parse (url : string) : result hf_target :=
  if negb (endswith (lower url) "safetensors")
  then Raise (ValueError "Only safetensors files are supported.")
  else
    let parser_string := replace (replace url "http://" "") "https://" "" in
    let parts := split parser_string "/" in
    match parts !! 1%nat, parts !! 2%nat with
    | Some p1, Some p2 =>
        let repo_id := p1 +:+ "/" +:+ p2 in
        let filename := List.last parts "" in
        let subfolder_length := Z.of_nat (length parts) - 6 in
        let subfolder :=
          if 0 <? subfolder_length
          then Some (join "/" (subfolder_parts parts)) else None in
        Ok (mkTarget repo_id subfolder filename)
    | _, _ => Raise IndexError
    end.

(** Lines 93-96: the version-id rewrite. *)
Definition civitai_download_url (model_version_id : string) : string :=
  "https://civitai.com/api/download/models/" +:+ model_version_id
    +:+ "?type=Model&format=SafeTensor".

Definition civitai_fix_url (url : string) : result string :=
  if contains "modelVersionId" url then
    match split url "modelVersionId=" !! 1%nat with
    | Some model_version_id =>
        match split model_version_id "&" !! 0%nat with
        | Some model_version_id => Ok (civitai_download_url model_version_id)
        | None => Raise IndexError
        end
    | None => Raise IndexError
    end
  else Ok url.

(** Lines 104-108: the API key is added to the URL that is requested. *)
Definition add_api_key (env : gmap string string) (url : string) : string :=
  match env !! "CIVITAI_API_KEY" with
  | Some api_key =>
      if negb (String.eqb (strip api_key) "")
      then url +:+ "&token=" +:+ api_key else url
  | None => url
  end.

Section Resolver.

(** [huggingface_hub.hf_hub_download(repo_id, subfolder, filename,
    cache_dir)], an external primitive. *)
Variable hf_hub_download : string -> option string -> string -> string -> py string.

Definition huggingface_branch (url : string) : py string :=
  let url := hf_normalize url in
  let! t := lift (hf_parse url) in
  let! cache_dir := find_or_create_cache in
  hf_hub_download (strip (repo_id t)) (subfolder t) (strip (filename t)) cache_dir.

Definition civitai_branch (url : string) : py string :=
  let! url := lift (civitai_fix_url url) in
  if negb (contains "SafeTensor" url)
  then raise (ValueError "Only safetensors files are supported for security reasons.")
  else
    let save_filename := get_filename_from_url url "safetensors" in
    let! env := os_environ in
    let url := add_api_key env url in
    let! cache := find_or_create_cache in
    let lora_path := os_path_join cache ["civitai"; save_filename] in
    let! e := os_path_exists lora_path in
    do! (if negb e then download_file url lora_path else ret tt) in
    ret lora_path.

Definition general_branch (url : string) : py string :=
  if negb (endswith (List.hd "" (split (lower url) "?")) "safetensors")
  then raise (ValueError "Only safetensors files are supported for security reasons.")
  else
    let save_filename := get_filename_from_url url "safetensors" in
    let! cache := find_or_create_cache in
    let lora_path := os_path_join cache ["general"; save_filename] in
    let! e := os_path_exists lora_path in
    do! (if negb e then download_file url lora_path else ret tt) in
    ret lora_path.

Definition get_lora_from_url (url : string) : py string :=
  let url := strip url in
  if String.eqb url "" then raise (ValueError "URL is empty")
  else if negb (startswith url "http") then raise (ValueError "Invalid URL")
  else
    match provider_of url with
    | NamedRepositoryHost => huggingface_branch url
    | MarketplaceHost => civitai_branch url
    | GenericHost => general_branch url
    end.

(** *** The node *)

Context {MODEL LORA : Type}.

(** [comfy.utils.load_torch_file(path, safe_load=True)] and
    [comfy.sd.load_lora_for_models(model, None, lora, strength, 0)[0]],
    external primitives. *)
Variable load_torch_file : string -> py LORA.
Variable load_lora_for_models : MODEL -> LORA -> PrimFloat.float -> py MODEL.

Record LoadLoraModelOnlyWithUrl : Type := mkNode {
  loaded_lora : option LORA;
  loaded_lora_path : option string
}.

(** [__init__] *)
Definition new_node : LoadLoraModelOnlyWithUrl := mkNode None None.

Definition path_is (o : option string) (p : string) : bool :=
  match o with Some q => String.eqb q p | None => false end.

(** The method returns its result together with the node and the world it
    leaves. *)
Definition load_lora_model_only_from_url
    (self : LoadLoraModelOnlyWithUrl) (model : MODEL) (url : string)
    (strength_model : PrimFloat.float)
  : World -> result MODEL * LoadLoraModelOnlyWithUrl * World :=
  fun w =>
    if PrimFloat.eqb strength_model PrimFloat.zero then (Ok model, self, w)
    else
      match get_lora_from_url url w with
      | (Raise e, w) => (Raise e, self, w)
      | (Ok lora_path, w) =>
          let (lora, self) :=
            match loaded_lora self with
            | Some l =>
                if path_is (loaded_lora_path self) lora_path
                then (Some l, self)
                else (None, mkNode None None)
            | None => (None, self)
            end in
          let loaded : result LORA * LoadLoraModelOnlyWithUrl * World :=
            match lora with
            | Some l => (Ok l, self, w)
            | None =>
                match load_torch_file lora_path w with
                | (Ok l, w) => (Ok l, mkNode (Some l) (Some lora_path), w)
                | (Raise e, w) => (Raise e, self, w)
                end
            end in
          match loaded with
          | (Raise e, self, w) => (Raise e, self, w)
          | (Ok lora, self, w) =>
              match load_lora_for_models model lora strength_model w with
              | (Ok model_lora, w) => (Ok model_lora, self, w)
              | (Raise e, w) => (Raise e, self, w)
              end
          end
      end.

End Resolver.

(** ** Notions used to state the properties *)

(** The character [c] occurs in [s]. *)
Fixpoint mem_char (c : ascii) (s : string) : bool :=
  match s with
  | EmptyString => false
  | String d s' => Ascii.eqb c d || mem_char c s'
  end.

(** The text of [s] before the first occurrence of [sep]; all of [s] when
    there is none. *)
Fixpoint before_sub (sep s : string) : string :=
  match s with
  | EmptyString => EmptyString
  | String c s' => if startswith s sep then EmptyString else String c (before_sub sep s')
  end.

(** The text of [s] after the first occurrence of the character [c]. *)
Fixpoint after_char (c : ascii) (s : string) : option string :=
  match s with
  | EmptyString => None
  | String d s' => if Ascii.eqb c d then Some s' else after_char c s'
  end.

(** The URL without its query string. *)
Definition without_query (url : string) : string := before_sub "?" url.

(** The query parameters of a URL, as (name, value) pairs: the query string
    follows the first question mark, parameters are separated by
    ampersands, and a name ends at the first equals sign. *)
Definition query_params (url : string) : list (string * string) :=
  match after_char "?" url with
  | None => []
  | Some q =>
      map (fun kv => (before_sub "=" kv, default "" (after_char "=" kv)))
          (split q "&")
  end.

Definition has_query_param (url name value : string) : bool :=
  existsb (fun kv => String.eqb (fst kv) name && String.eqb (snd kv) value)
          (query_params url).



(** The URL ends in the supported extension, the query string aside and
    whatever the case. *)
Definition has_supported_extension (url : string) : bool :=
  endswith (lower (without_query url)) ".safetensors".

(** The regular files of a file system, with their contents. *)
Definition files_of (m : gmap string node) : gmap string string :=
  omap (fun n => match n with File c => Some c | Dir => None end) m.

(** The characters of [sep] but the last. *)
Definition but_last (sep : string) : string := drop_last 1 sep.

(** Between two worlds nothing changed but, possibly, directories that were
    created. *)
Definition only_dirs_added (w w' : World) : Prop :=
  files_of (fs w') = files_of (fs w) /\ cwd w' = cwd w /\
  environ w' = environ w /\ http w' = http w /\
  requests_log w' = requests_log w /\ stdout w' = stdout w.

(** Every entry lies in a directory that exists; the root is its own
    parent. *)
Definition fs_wf (w : World) : Prop :=
  map_Forall
    (fun p _ => os_path_dirname p = p \/ path_isdir (fs w) (parent_of w p) = true)
    (fs w).

Global Instance fs_wf_dec (w : World) : Decision (fs_wf w).
Proof. unfold fs_wf. apply _. Defined.

(** The directory in which [find_or_create_cache] looks for its cache. *)
Definition cache_parent (w : World) : string :=
  let c := cwd w in
  let c := if path_exists (fs w) (os_path_join c ["ComfyUI"])
           then os_path_join c ["ComfyUI"] else c in
  if path_exists (fs w) (os_path_join c ["models"])
  then os_path_join c ["models"] else c.

Definition cache_root (w : World) : string :=
  os_path_join (cache_parent w) ["huggingface_cache"].

(** The cache path [get_lora_from_url] computes for a URL of the marketplace
    or of a generic host that passes its checks. *)
Definition computed_cache_path (w : World) (url : string) : option string :=
  let url := strip url in
  if String.eqb url "" || negb (startswith url "http") then None
  else
    match provider_of url with
    | NamedRepositoryHost => None
    | MarketplaceHost =>
        match civitai_fix_url url with
        | Ok url =>
            if contains "SafeTensor" url
            then Some (os_path_join (cache_root w)
                         ["civitai"; get_filename_from_url url "safetensors"])
            else None
        | Raise _ => None
        end
    | GenericHost =>
        if endswith (List.hd "" (split (lower url) "?")) "safetensors"
        then Some (os_path_join (cache_root w)
                     ["general"; get_filename_from_url url "safetensors"])
        else None
    end.

(** ** Worlds and primitives to run the program on *)

Module Sample.

(** A hub that answers with the place it would store the file at. *)
Definition hub (repo_id : string) (subfolder : option string)
    (filename cache_dir : string) : py string :=
  ret (os_path_join cache_dir [repo_id; default "" subfolder; filename]).

(** A server that knows one file and the marketplace downloads, and
    refuses every other request. *)
Definition server (url : string) : http_outcome :=
  if endswith url "/weights.safetensors?v=2" || contains "format=SafeTensor" url
  then Response 200 "weights" else Response 404 "not found".

(** A fresh installation: no cache yet. *)
Definition fresh : World :=
  mkWorld {[ "/" := Dir; "/srv" := Dir; "/srv/ComfyUI" := Dir;
             "/srv/ComfyUI/models" := Dir ]}
          "/srv" ∅ server [] [].

(** The same with an API key in the environment. *)
Definition fresh_with_key : World :=
  mkWorld (fs fresh) "/srv" {[ "CIVITAI_API_KEY" := "secret" ]} server [] [].

(** An installation whose cache holds the two files asked for below. *)
Definition cached_fs : gmap string node :=
  {[ "/" := Dir; "/srv" := Dir;
     "/srv/huggingface_cache" := Dir;
     "/srv/huggingface_cache/civitai" := Dir;
     "/srv/huggingface_cache/civitai/1e1f20f94c4b5cb4a4277cfb8fc2abdf.safetensors"
       := File "lora 5000";
     "/srv/huggingface_cache/general" := Dir;
     "/srv/huggingface_cache/general/3a0b19ae124c9a1c3e7d0c0bfe059621.safetensors"
       := File "weights" ]}.

Definition cached : World := mkWorld cached_fs "/srv" ∅ server [] [].

(** A loader that reads the file as it is, and a patch that appends the
    weights to the model. *)
Definition load_torch_file (path : string) : py string :=
  fun w =>
    match fs w !! path with
    | Some (File content) => (Ok content, w)
    | _ => (Raise FileNotFoundError, w)
    end.

Definition load_lora_for_models (model lora : string)
    (strength : PrimFloat.float) : py string :=
  ret (model +:+ "+" +:+ lora).

End Sample.

(** ** Notions used to state further properties *)

(** The tail the marketplace and the generic branch share (lines 111-115
    and 123-126): find the cache, look for the file, download it when it is
    not there. *)
Definition fetch_into_cache (requested sub save_filename : string) : py string :=
  let! cache := find_or_create_cache in
  let lora_path := os_path_join cache [sub; save_filename] in
  let! e := os_path_exists lora_path in
  do! (if negb e then download_file requested lora_path else ret tt) in
  ret lora_path.

(** The world after [print msg]. *)
Definition printed (msg : string) (w : World) : World :=
  mkWorld (fs w) (cwd w) (environ w) (http w) (requests_log w) (stdout w ++ [msg]).

(** A name the program gives to an entry of its cache: one path component,
    other than the two directories the cache is looked for in. *)
Definition cache_name (s : string) : Prop :=
  mem_char "/" s = false /\ s <> "" /\ s <> "ComfyUI" /\ s <> "models".

(** The URL [get_lora_from_url] requests when it has to download: the
    trimmed URL for a generic host, the rewritten URL with the API key for
    the marketplace. *)
Definition requested_url (w : World) (url : string) : option string :=
  let url := strip url in
  match provider_of url with
  | NamedRepositoryHost => None
  | MarketplaceHost =>
      match civitai_fix_url url with
      | Ok url => Some (add_api_key (environ w) url)
      | Raise _ => None
      end
  | GenericHost => Some url
  end.

(** One segment of a path: not empty, no slash. *)
Definition segment (s : string) : Prop := mem_char "/" s = false /\ s <> "".

(** The segments of a URL of the named host, after the scheme. *)
Definition hf_segments (host owner repo kind rev : string) (subs : list string)
    (file : string) : list string :=
  host :: owner :: repo :: kind :: rev :: subs ++ [file].

(** The subfolder for the directories between the revision and the file. *)
Definition subfolder_of (subs : list string) : option string :=
  match subs with
  | [] => None
  | _ => Some (join "/" subs)
  end.


(** The node holds weights and the path they were read from, or neither. *)
Definition slot_consistent {LORA : Type} (self : @LoadLoraModelOnlyWithUrl LORA) : Prop :=
  is_Some (loaded_lora self) <-> is_Some (loaded_lora_path self).

Module Scenario.

(** No network. *)
Definition offline : World :=
  mkWorld (fs Sample.fresh) "/srv" ∅ (fun _ => ConnectionFailed) [] [].

(** A loader that cannot read its file. *)
Definition broken_loader (path : string) : py string :=
  raise (Exception "not a safetensors file").

(** A node that holds the weights of the cached generic file. *)
Definition warm_node : @LoadLoraModelOnlyWithUrl string :=
  mkNode (Some "weights")
    (Some "/srv/huggingface_cache/general/3a0b19ae124c9a1c3e7d0c0bfe059621.safetensors").

(** A node that holds weights read from another path. *)
Definition stale_node : @LoadLoraModelOnlyWithUrl string :=
  mkNode (Some "old weights") (Some "/srv/huggingface_cache/general/old.safetensors").

End Scenario.

(** * Properties *)

(** ** Strings *)

Lemma app_cons (c : ascii) (s t : string) :
  String c s +:+ t = String c (s +:+ t).
Proof. reflexivity. Qed.

Lemma app_nil_l (t : string) : "" +:+ t = t.
Proof. reflexivity. Qed.

Lemma app_nil_r (s : string) : s +:+ "" = s.
Proof.
  induction s as [|c s IH]; [reflexivity|].
  rewrite app_cons, IH. reflexivity.
Qed.

Lemma app_assoc (s t u : string) : (s +:+ t) +:+ u = s +:+ (t +:+ u).
Proof.
  induction s as [|c s IH]; [reflexivity|].
  rewrite !app_cons, IH. reflexivity.
Qed.

(** ** Splitting and searching *)

Lemma startswith_nil (s : string) : startswith s "" = true.
Proof. destruct s; reflexivity. Qed.

Lemma startswith_app (p r : string) : startswith (p +:+ r) p = true.
Proof.
  induction p as [|c p IH]; [apply startswith_nil|].
  rewrite app_cons. simpl. rewrite Ascii.eqb_refl. exact IH.
Qed.

Lemma startswith_app_long (a b p : string) :
  (String.length p <= String.length a)%nat ->
  startswith (a +:+ b) p = startswith a p.
Proof.
  revert a. induction p as [|c p IH]; intros a Hlen.
  - rewrite !startswith_nil. reflexivity.
  - destruct a as [|d a]; simpl in Hlen; [lia|].
    rewrite app_cons. simpl. rewrite IH by lia. reflexivity.
Qed.

Lemma length_app (s t : string) :
  String.length (s +:+ t) = (String.length s + String.length t)%nat.
Proof.
  induction s as [|c s IH]; [reflexivity|].
  rewrite app_cons. simpl. rewrite IH. reflexivity.
Qed.

Lemma split_from_nonempty (sep s : string) (k : nat) : split_from sep s k <> [].
Proof.
  revert k. induction s as [|c s IH]; intros k; cbn [split_from]; [done|].
  destruct k as [|k]; [|apply IH].
  destruct (startswith (String c s) sep); [done|].
  destruct (split_from sep s 0); done.
Qed.

Lemma split_from_skip (sep a r : string) :
  split_from sep (a +:+ r) (String.length a) = split_from sep r 0.
Proof.
  induction a as [|c a IH]; [reflexivity|].
  rewrite app_cons. simpl. exact IH.
Qed.

Lemma split_from_cons_miss (sep : string) (c : ascii) (s : string) :
  startswith (String c s) sep = false ->
  split_from sep (String c s) 0 =
  String c (List.hd "" (split_from sep s 0)) :: List.tl (split_from sep s 0).
Proof.
  intros H. cbn [split_from]. rewrite H.
  pose proof (split_from_nonempty sep s 0) as Hne.
  destruct (split_from sep s 0); [contradiction|reflexivity].
Qed.

Lemma split_from_hit (sep r : string) :
  sep <> "" -> split_from sep (sep +:+ r) 0 = "" :: split_from sep r 0.
Proof.
  intros Hsep. destruct sep as [|c sep]; [contradiction|].
  pose proof (startswith_app (String c sep) r) as Hs.
  rewrite app_cons in *. cbn [split_from]. rewrite Hs.
  replace (String.length (String c sep) - 1)%nat with (String.length sep)
    by (simpl; lia).
  rewrite split_from_skip. reflexivity.
Qed.

Lemma length_substring_0 (n : nat) (s : string) :
  (n <= String.length s)%nat -> String.length (String.substring 0 n s) = n.
Proof.
  revert n. induction s as [|c s IH]; intros [|n] H; simpl in *; try lia; try reflexivity.
  rewrite IH by lia. reflexivity.
Qed.

Lemma length_but_last (sep : string) :
  String.length (but_last sep) = (String.length sep - 1)%nat.
Proof. unfold but_last, drop_last. apply length_substring_0. lia. Qed.

Lemma substring_0_prefix (n : nat) (s : string) :
  exists t, s = String.substring 0 n s +:+ t.
Proof.
  revert n. induction s as [|c s IH]; intros [|n]; simpl.
  - exists "". reflexivity.
  - exists "". reflexivity.
  - exists (String c s). reflexivity.
  - destruct (IH n) as [t Ht]. exists t. rewrite app_cons, <- Ht. reflexivity.
Qed.

Lemma split_first_occurrence (sep pre rest : string) :
  sep <> "" ->
  contains sep (pre +:+ but_last sep) = false ->
  split_from sep (pre +:+ sep +:+ rest) 0 = pre :: split_from sep rest 0.
Proof.
  intros Hsep. induction pre as [|c pre IH]; intros Hno.
  - rewrite app_nil_l. apply split_from_hit, Hsep.
  - rewrite app_cons in Hno. cbn [contains] in Hno.
    apply orb_false_elim in Hno as [Hhead Htail].
    rewrite app_cons, split_from_cons_miss.
    + rewrite IH by exact Htail. reflexivity.
    + destruct (substring_0_prefix (String.length sep - 1) sep) as [t Ht].
      fold (drop_last 1 sep) in Ht. fold (but_last sep) in Ht.
      rewrite <- Hhead, <- !app_cons.
      rewrite Ht at 1. rewrite app_assoc, <- (app_assoc _ (but_last sep)).
      apply startswith_app_long.
      rewrite length_app, length_but_last. simpl. lia.
Qed.

Lemma hd_split_from (sep s : string) :
  List.hd "" (split_from sep s 0) = before_sub sep s.
Proof.
  induction s as [|c s IH]; [reflexivity|].
  cbn [before_sub]. destruct (startswith (String c s) sep) eqn:E.
  - cbn [split_from]. rewrite E. reflexivity.
  - rewrite split_from_cons_miss by exact E. simpl. rewrite IH. reflexivity.
Qed.

Lemma startswith_no_straddle (sep a post : string) (c : ascii) :
  mem_char c sep = false ->
  post = "" \/ startswith post (String c "") = true ->
  startswith (a +:+ post) sep = true -> startswith a sep = true.
Proof.
  intros Hc Hpost. revert a. induction sep as [|s0 sep IH]; intros a H.
  - apply startswith_nil.
  - simpl in Hc. apply orb_false_elim in Hc as [Hc0 Hc].
    destruct a as [|a0 a].
    + rewrite app_nil_l in H. destruct Hpost as [->|Hp]; [discriminate H|].
      destruct post as [|p0 post]; [discriminate Hp|].
      simpl in H, Hp. apply andb_true_iff in Hp as [Hp _], H as [H _].
      apply Ascii.eqb_eq in Hp, H. subst. rewrite Ascii.eqb_refl in Hc0. discriminate.
    + rewrite app_cons in H. simpl in *.
      apply andb_true_iff in H as [H1 H2]. rewrite H1. simpl. apply IH; assumption.
Qed.

Lemma before_sub_char_cons (c d : ascii) (s : string) :
  before_sub (String c "") (String d s) =
  if Ascii.eqb c d then "" else String d (before_sub (String c "") s).
Proof.
  cbn [before_sub startswith]. rewrite startswith_nil, andb_true_r. reflexivity.
Qed.

Lemma before_field (sep id post : string) (c : ascii) :
  mem_char c sep = false ->
  mem_char c id = false ->
  contains sep id = false ->
  post = "" \/ startswith post (String c "") = true ->
  before_sub (String c "") (before_sub sep (id +:+ post)) = id.
Proof.
  intros Hc Hid Hno Hpost. induction id as [|d id IH].
  - rewrite app_nil_l. destruct Hpost as [->|Hp]; [reflexivity|].
    destruct post as [|p0 post]; [discriminate Hp|].
    simpl in Hp. apply andb_true_iff in Hp as [Hp _]. apply Ascii.eqb_eq in Hp. subst p0.
    cbn [before_sub].
    destruct (startswith (String c post) sep) eqn:E; [reflexivity|].
    rewrite before_sub_char_cons, Ascii.eqb_refl. reflexivity.
  - cbn [mem_char contains] in Hid, Hno.
    apply orb_false_elim in Hid as [Hd Hid], Hno as [Hhead Hno].
    rewrite app_cons. cbn [before_sub].
    destruct (startswith (String d (id +:+ post)) sep) eqn:E.
    + rewrite <- app_cons in E.
      apply (startswith_no_straddle sep _ post c Hc Hpost) in E. congruence.
    + rewrite before_sub_char_cons, Hd, IH by assumption. reflexivity.
Qed.

Lemma contains_app (sub pre rest : string) :
  contains sub (pre +:+ sub +:+ rest) = true.
Proof.
  induction pre as [|c pre IH].
  - rewrite app_nil_l. pose proof (startswith_app sub rest) as H.
    destruct (sub +:+ rest); cbn [contains]; rewrite H; reflexivity.
  - rewrite app_cons. cbn [contains]. rewrite IH. apply orb_true_r.
Qed.

Lemma mem_char_contains (c : ascii) (s : string) :
  contains (String c "") s = mem_char c s.
Proof.
  induction s as [|d s IH]; [reflexivity|].
  cbn [contains mem_char startswith]. rewrite startswith_nil, andb_true_r, IH.
  reflexivity.
Qed.

Lemma civitai_fix_url_first (pre id post : string) :
  contains "modelVersionId=" (pre +:+ "modelVersionId") = false ->
  contains "&" id = false ->
  contains "modelVersionId=" id = false ->
  post = "" \/ startswith post "&" = true ->
  civitai_fix_url (pre +:+ "modelVersionId=" +:+ id +:+ post)
  = Ok (civitai_download_url id).
Proof.
  intros Hpre Hamp Hid Hpost. unfold civitai_fix_url.
  change "modelVersionId=" with ("modelVersionId" +:+ "=") at 1.
  rewrite (app_assoc "modelVersionId"), contains_app.
  change ("modelVersionId" +:+ "=" +:+ id +:+ post)
    with ("modelVersionId=" +:+ id +:+ post).
  unfold split. rewrite split_first_occurrence; [|done|exact Hpre].
  cbn [lookup list_lookup].
  pose proof (split_from_nonempty "modelVersionId=" (id +:+ post) 0) as Hne.
  pose proof (hd_split_from "modelVersionId=" (id +:+ post)) as Hhd.
  destruct (split_from "modelVersionId=" (id +:+ post) 0) as [|x xs]; [done|].
  cbn [lookup list_lookup]. simpl in Hhd. subst x.
  pose proof (split_from_nonempty "&" (before_sub "modelVersionId=" (id +:+ post)) 0) as Hne2.
  pose proof (hd_split_from "&" (before_sub "modelVersionId=" (id +:+ post))) as Hhd2.
  destruct (split_from "&" _ 0) as [|y ys]; [done|].
  cbn [lookup list_lookup]. simpl in Hhd2. subst y.
  rewrite (before_field "modelVersionId=" id post "&"); auto.
  rewrite <- mem_char_contains. exact Hamp.
Qed.

(** ** Paths *)

Lemma rsplit_slash_no_slash (b : string) :
  mem_char "/" b = false -> rsplit_slash b = ("", b).
Proof.
  induction b as [|c b IH]; [reflexivity|].
  cbn [mem_char rsplit_slash]. intros H. apply orb_false_elim in H as [Hc Hb].
  rewrite (IH Hb). rewrite Ascii.eqb_sym, Hc. reflexivity.
Qed.

Lemma rsplit_slash_app (a b : string) :
  mem_char "/" b = false -> rsplit_slash (a +:+ "/" +:+ b) = (a +:+ "/", b).
Proof.
  intros Hb. induction a as [|c a IH].
  - rewrite !app_nil_l. change ("/" +:+ b) with (String "/" b).
    cbn [rsplit_slash]. rewrite (rsplit_slash_no_slash b Hb). reflexivity.
  - rewrite !(app_cons c a). cbn [rsplit_slash]. rewrite IH.
    destruct (a +:+ "/") eqn:E; [|reflexivity].
    destruct a; discriminate E.
Qed.

Lemma rstrip_slash_app_slash (a : string) :
  rstrip_slash (a +:+ "/") = rstrip_slash a.
Proof.
  induction a as [|c a IH]; [reflexivity|].
  rewrite app_cons. cbn [rstrip_slash]. rewrite IH. reflexivity.
Qed.

Lemma rstrip_slash_app (x b : string) :
  rstrip_slash b = b -> b <> "" -> rstrip_slash (x +:+ b) = x +:+ b.
Proof.
  intros Hb Hne. induction x as [|c x IH]; [exact Hb|].
  rewrite app_cons. cbn [rstrip_slash]. rewrite IH.
  destruct (x +:+ b) eqn:E; [|reflexivity].
  destruct x; [rewrite app_nil_l in E; contradiction|discriminate E].
Qed.

Lemma endswith_slash_rstrip (a : string) :
  rstrip_slash a = a -> a <> "" -> endswith a "/" = false.
Proof.
  induction a as [|c a IH]; [done|]. intros H _.
  cbn [rstrip_slash] in H. cbn [endswith].
  destruct (rstrip_slash a) as [|d r] eqn:E.
  - destruct (Ascii.eqb c "/") eqn:Ec; [discriminate H|].
    injection H as <-. simpl. rewrite Ec. reflexivity.
  - injection H as H. subst a. rewrite IH by done.
    rewrite orb_false_r. simpl. apply andb_false_r.
Qed.

Lemma startswith_slash_mem (b : string) :
  mem_char "/" b = false -> startswith b "/" = false.
Proof.
  destruct b as [|c b]; [reflexivity|]. cbn [mem_char startswith].
  intros H. apply orb_false_elim in H as [-> _]. reflexivity.
Qed.

(** A joined path ends with the component that was added. *)
Lemma os_path_join2_suffix (a b : string) :
  startswith b "/" = false ->
  exists x, os_path_join2 a b = x +:+ b /\ (x = "" \/ exists y, x = y +:+ "/").
Proof.
  intros Hb. unfold os_path_join2. rewrite Hb.
  destruct (String.eqb a "" || endswith a "/") eqn:E.
  - exists a. split; [reflexivity|].
    apply orb_true_iff in E as [E|E].
    + left. apply String.eqb_eq, E.
    + right. clear Hb. induction a as [|c a IH]; [discriminate E|].
      cbn [endswith] in E. apply orb_true_iff in E as [E|E].
      * apply String.eqb_eq in E. exists "". rewrite E. reflexivity.
      * destruct (IH E) as [y Hy]. exists (String c y). rewrite Hy. reflexivity.
  - exists (a +:+ "/"). split; [apply eq_sym, app_assoc|]. right. exists a. reflexivity.
Qed.

Lemma os_path_join2_tidy (a b : string) :
  rstrip_slash a = a -> a <> "" -> startswith b "/" = false ->
  os_path_join2 a b = a +:+ "/" +:+ b.
Proof.
  intros Ha Hne Hb. unfold os_path_join2. rewrite Hb.
  rewrite (endswith_slash_rstrip a Ha Hne).
  destruct (String.eqb a "") eqn:E; [apply String.eqb_eq in E; contradiction|].
  reflexivity.
Qed.

Lemma os_path_basename_join2 (a b : string) :
  mem_char "/" b = false -> os_path_basename (os_path_join2 a b) = b.
Proof.
  intros Hb.
  destruct (os_path_join2_suffix a b (startswith_slash_mem b Hb)) as (x & -> & [->|[y ->]]).
  - rewrite app_nil_l. unfold os_path_basename. rewrite rsplit_slash_no_slash; done.
  - rewrite app_assoc. unfold os_path_basename. rewrite rsplit_slash_app; done.
Qed.

Lemma os_path_join2_keeps_tidy (a b : string) :
  rstrip_slash b = b -> b <> "" -> startswith b "/" = false ->
  rstrip_slash (os_path_join2 a b) = os_path_join2 a b /\ os_path_join2 a b <> "".
Proof.
  intros Hb Hne Hs. destruct (os_path_join2_suffix a b Hs) as (x & -> & _).
  split; [apply rstrip_slash_app; assumption|].
  destruct x; [rewrite app_nil_l; exact Hne|discriminate].
Qed.

Lemma os_path_dirname_join2 (a b : string) :
  rstrip_slash a = a -> a <> "" -> mem_char "/" b = false ->
  os_path_dirname (os_path_join2 a b) = a.
Proof.
  intros Ha Hne Hb.
  rewrite os_path_join2_tidy by auto using startswith_slash_mem.
  unfold os_path_dirname, os_path_split.
  rewrite rsplit_slash_app by exact Hb.
  rewrite rstrip_slash_app_slash, Ha.
  destruct a; [contradiction|reflexivity].
Qed.

Lemma os_path_join2_longer (a b : string) :
  rstrip_slash a = a -> a <> "" -> startswith b "/" = false ->
  os_path_join2 a b <> a.
Proof.
  intros Ha Hne Hb. rewrite os_path_join2_tidy by assumption.
  intros E. apply (f_equal String.length) in E.
  rewrite !length_app in E. simpl in E. lia.
Qed.

(** ** The digest *)

Lemma hex_digit_no_slash (n : Z) : Ascii.eqb "/" (MD5.hex_digit n) = false.
Proof.
  unfold MD5.hex_digit. generalize (Z.to_nat n). intros i.
  do 17 (destruct i as [|i]; [reflexivity|]). destruct i; reflexivity.
Qed.

Lemma hex_no_slash (l : list Z) : mem_char "/" (MD5.hex l) = false.
Proof.
  induction l as [|b l IH]; [reflexivity|].
  cbn [MD5.hex mem_char]. rewrite !hex_digit_no_slash, IH. reflexivity.
Qed.

Lemma mem_char_app (c : ascii) (s t : string) :
  mem_char c (s +:+ t) = mem_char c s || mem_char c t.
Proof.
  induction s as [|d s IH]; [reflexivity|].
  rewrite app_cons. cbn [mem_char]. rewrite IH. apply orb_assoc.
Qed.

Lemma get_filename_from_url_no_slash (url : string) :
  mem_char "/" (get_filename_from_url url "safetensors") = false.
Proof.
  unfold get_filename_from_url, MD5.hexdigest.
  rewrite !mem_char_app, hex_no_slash. reflexivity.
Qed.

(** ** The file system *)

Lemma files_of_insert_dir (m : gmap string node) (p : string) :
  m !! p = None -> files_of (<[p := Dir]> m) = files_of m.
Proof.
  intros Hp. apply map_eq. intros q. unfold files_of. rewrite !lookup_omap.
  destruct (decide (p = q)) as [->|Hne].
  - rewrite lookup_insert_eq, Hp. reflexivity.
  - rewrite lookup_insert_ne by exact Hne. reflexivity.
Qed.

Lemma only_dirs_added_refl (w : World) : only_dirs_added w w.
Proof. repeat split. Qed.

Lemma only_dirs_added_trans (w1 w2 w3 : World) :
  only_dirs_added w1 w2 -> only_dirs_added w2 w3 -> only_dirs_added w1 w3.
Proof.
  unfold only_dirs_added. intros (?&?&?&?&?&?) (?&?&?&?&?&?).
  repeat split; congruence.
Qed.

Lemma os_mkdir_only_dirs (p : string) (w w' : World) (r : result unit) :
  os_mkdir p w = (r, w') -> only_dirs_added w w'.
Proof.
  unfold os_mkdir. intros H.
  destruct (fs w !! p) eqn:Ep.
  - injection H as _ <-. apply only_dirs_added_refl.
  - destruct (fs w !! parent_of w p) as [[c|]|]; injection H as _ <-;
      try apply only_dirs_added_refl.
    repeat split. simpl. apply files_of_insert_dir, Ep.
Qed.

Lemma os_makedirs_fuel_only_dirs (fuel : nat) (name : string) (w w' : World)
    (r : result unit) :
  os_makedirs_fuel fuel name w = (r, w') -> only_dirs_added w w'.
Proof.
  revert name w w' r. induction fuel as [|fuel IH]; intros name w w' r H.
  - injection H as _ <-. apply only_dirs_added_refl.
  - cbn [os_makedirs_fuel] in H.
    destruct (os_path_split name) as [head tail].
    destruct (if String.eqb tail "" then os_path_split head else (head, tail))
      as [head' tail'].
    assert (Hfinal : forall v v' r',
      (match os_mkdir name v with
       | (Raise e, v1) =>
           if path_isdir (fs v1) name then (Ok tt, v1) else (Raise e, v1)
       | r0 => r0
       end) = (r', v') -> only_dirs_added v v').
    { intros v v' r' Hf. destruct (os_mkdir name v) as [[[]|e] v1] eqn:Em.
      - injection Hf as _ <-. eapply os_mkdir_only_dirs, Em.
      - destruct (path_isdir (fs v1) name); injection Hf as _ <-;
          eapply os_mkdir_only_dirs, Em. }
    destruct (negb (String.eqb head' "") && negb (String.eqb tail' "")
              && negb (path_exists (fs w) head')).
    + destruct (os_makedirs_fuel fuel head' w) as [[[]|e] v] eqn:Er.
      * apply IH in Er. destruct (String.eqb tail' ".").
        -- injection H as _ <-. exact Er.
        -- eapply only_dirs_added_trans; [exact Er|]. eapply Hfinal, H.
      * apply IH in Er.
        destruct e; try (injection H as _ <-; exact Er).
        destruct (String.eqb tail' ".").
        -- injection H as _ <-. exact Er.
        -- eapply only_dirs_added_trans; [exact Er|]. eapply Hfinal, H.
    + eapply Hfinal, H.
Qed.

Lemma os_makedirs_only_dirs (name : string) (w w' : World) (r : result unit) :
  os_makedirs name w = (r, w') -> only_dirs_added w w'.
Proof. apply os_makedirs_fuel_only_dirs. Qed.


Lemma rsplit_slash_length (p : string) :
  (String.length (fst (rsplit_slash p)) + String.length (snd (rsplit_slash p))
   = String.length p)%nat.
Proof.
  induction p as [|c p IH]; [reflexivity|].
  cbn [rsplit_slash]. destruct (rsplit_slash p) as [[|d h] t]; simpl in *.
  - destruct (Ascii.eqb c "/"); simpl; lia.
  - lia.
Qed.

Lemma rstrip_slash_length (s : string) :
  (String.length (rstrip_slash s) <= String.length s)%nat.
Proof.
  induction s as [|c s IH]; [reflexivity|].
  cbn [rstrip_slash]. destruct (rstrip_slash s) as [|d r]; simpl in *.
  - destruct (Ascii.eqb c "/"); simpl; lia.
  - lia.
Qed.

Lemma os_path_split_length (p : string) :
  (String.length (fst (os_path_split p)) + String.length (snd (os_path_split p))
   <= String.length p)%nat.
Proof.
  unfold os_path_split. pose proof (rsplit_slash_length p) as H.
  destruct (rsplit_slash p) as [h t]. pose proof (rstrip_slash_length h) as Hh.
  destruct (rstrip_slash h); simpl in *; lia.
Qed.

Lemma os_mkdir_no_recursion_error (p : string) (w : World) :
  fst (os_mkdir p w) <> Raise RecursionError.
Proof.
  unfold os_mkdir. destruct (fs w !! p); [done|].
  destruct (fs w !! parent_of w p) as [[|]|]; done.
Qed.

(** The fuel of [os_makedirs] is never exhausted. *)
Lemma os_makedirs_fuel_enough (fuel : nat) (name : string) (w : World) :
  (String.length name < fuel)%nat ->
  fst (os_makedirs_fuel fuel name w) <> Raise RecursionError.
Proof.
  revert name w. induction fuel as [|fuel IH]; intros name w Hlen; [lia|].
  cbn [os_makedirs_fuel].
  pose proof (os_path_split_length name) as H1.
  destruct (os_path_split name) as [head tail]. cbn [fst snd] in H1.
  assert (Hfinal : forall v,
    fst (match os_mkdir name v with
         | (Raise e, v1) =>
             if path_isdir (fs v1) name then (Ok tt, v1) else (Raise e, v1)
         | r0 => r0
         end) <> Raise RecursionError).
  { intros v. pose proof (os_mkdir_no_recursion_error name v) as Hm.
    destruct (os_mkdir name v) as [[[]|e] v1]; [done|].
    destruct (path_isdir (fs v1) name); [done|exact Hm]. }
  assert (Hshort : forall head' tail',
    (if String.eqb tail "" then os_path_split head else (head, tail)) = (head', tail') ->
    String.eqb tail' "" = false -> (String.length head' < fuel)%nat).
  { intros head' tail' E Ht.
    assert (String.length tail' <> 0%nat).
    { destruct tail'; [discriminate Ht|simpl; lia]. }
    destruct (String.eqb tail "").
    - pose proof (os_path_split_length head) as H2. rewrite E in H2.
      cbn [fst snd] in H2. lia.
    - injection E as <- <-. lia. }
  destruct (if String.eqb tail "" then os_path_split head else (head, tail))
    as [head' tail'] eqn:E.
  destruct (String.eqb head' ""); cbn [negb andb]; [apply Hfinal|].
  destruct (String.eqb tail' "") eqn:Et; cbn [negb andb]; [apply Hfinal|].
  destruct (path_exists (fs w) head'); cbn [negb]; [apply Hfinal|].
  pose proof (IH head' w (Hshort _ _ eq_refl Et)) as Hrec.
  destruct (os_makedirs_fuel fuel head' w) as [[[]|e] v].
  - destruct (String.eqb tail' "."); [done|apply Hfinal].
  - destruct e; try exact Hrec.
    destruct (String.eqb tail' "."); [done|apply Hfinal].
Qed.

Lemma os_makedirs_total (name : string) (w : World) :
  fst (os_makedirs name w) <> Raise RecursionError.
Proof. apply os_makedirs_fuel_enough. lia. Qed.

(** ** The cache directory *)

Lemma find_or_create_cache_hit (w : World) :
  path_exists (fs w) (cache_root w) = true ->
  find_or_create_cache w = (Ok (cache_root w), w).
Proof.
  unfold cache_root, cache_parent, find_or_create_cache, bind, os_getcwd,
    os_path_exists, ret.
  intros H.
  destruct (path_exists (fs w) (os_path_join (cwd w) ["ComfyUI"]));
    destruct (path_exists (fs w) (os_path_join _ ["models"]));
    rewrite H; reflexivity.
Qed.

Lemma find_or_create_cache_inv (w w' : World) (r : result string) :
  find_or_create_cache w = (r, w') ->
  (forall root, r = Ok root -> root = cache_root w) /\
  (forall msg, r <> Raise (ValueError msg)) /\
  files_of (fs w') = files_of (fs w) /\
  requests_log w' = requests_log w.
Proof.
  unfold cache_root, cache_parent, find_or_create_cache, bind, os_getcwd,
    os_path_exists, ret, print.
  cbv zeta.
  set (c1 := if path_exists (fs w) (os_path_join (cwd w) ["ComfyUI"])
             then os_path_join (cwd w) ["ComfyUI"] else cwd w).
  set (c2 := if path_exists (fs w) (os_path_join c1 ["models"])
             then os_path_join c1 ["models"] else c1).
  intros H.
  destruct (path_exists (fs w) (os_path_join c2 ["huggingface_cache"])).
  - injection H as <- <-. repeat split; [by intros ? [= <-]|done].
  - simpl in H.
    match type of H with context [os_mkdir ?p ?v] =>
      destruct (os_mkdir p v) as [[[]|e] v'] eqn:Em end.
    + injection H as <- <-. apply os_mkdir_only_dirs in Em as (Hf & _ & _ & _ & Hl & _).
      repeat split; [by intros ? [= <-]|done|exact Hf|exact Hl].
    + injection H as <- <-. pose proof Em as Em'.
      apply os_mkdir_only_dirs in Em as (Hf & _ & _ & _ & Hl & _).
      repeat split; [done| |exact Hf|exact Hl].
      intros msg Hr. injection Hr as ->.
      unfold os_mkdir in Em'. simpl in Em'.
      repeat match type of Em' with
             | context [match ?x with _ => _ end] => destruct x
             end; discriminate Em'.
Qed.

Lemma cache_root_tidy (w : World) :
  rstrip_slash (cache_root w) = cache_root w /\ cache_root w <> "".
Proof. apply os_path_join2_keeps_tidy; done. Qed.

Lemma path_exists_parent (w : World) (a b : string) :
  fs_wf w -> rstrip_slash a = a -> a <> "" -> mem_char "/" b = false ->
  path_exists (fs w) (os_path_join2 a b) = true ->
  path_exists (fs w) a = true.
Proof.
  intros Hwf Ha Hne Hb Hex. unfold path_exists in Hex.
  destruct (fs w !! os_path_join2 a b) as [n|] eqn:E; [|discriminate Hex].
  pose proof (Hwf _ _ E) as Hp. simpl in Hp.
  unfold parent_of in Hp.
  rewrite os_path_dirname_join2 in Hp by assumption.
  destruct Hp as [Hp|Hp].
  - exfalso. symmetry in Hp. revert Hp.
    apply os_path_join2_longer; auto using startswith_slash_mem.
  - destruct a; [contradiction|]. unfold path_isdir in Hp. unfold path_exists.
    destruct (fs w !! String a a0); [reflexivity|discriminate Hp].
Qed.

(** A file found at its cache path is returned with the world as it was. *)
Lemma cached_file_found (w : World) (sub name : string) :
  fs_wf w -> rstrip_slash sub = sub -> sub <> "" -> mem_char "/" sub = false ->
  mem_char "/" name = false ->
  path_exists (fs w) (os_path_join (cache_root w) [sub; name]) = true ->
  find_or_create_cache w = (Ok (cache_root w), w).
Proof.
  intros Hwf Hs Hsne Hsm Hn Hex. apply find_or_create_cache_hit.
  destruct (cache_root_tidy w) as [Ht Hne].
  apply (path_exists_parent w _ sub Hwf Ht Hne Hsm).
  destruct (os_path_join2_keeps_tidy (cache_root w) sub Hs Hsne
              (startswith_slash_mem _ Hsm)) as [Ht2 Hne2].
  apply (path_exists_parent w _ name Hwf Ht2 Hne2 Hn). exact Hex.
Qed.

(** Every path returned for the marketplace or a generic host is the
    computed cache path. *)
Lemma find_or_create_cache_root (w w' : World) (root : string) :
  find_or_create_cache w = (Ok root, w') -> root = cache_root w.
Proof. intros H. apply find_or_create_cache_inv in H as [H _]. auto. Qed.

Lemma lower_char_question (d : ascii) :
  Ascii.eqb "?" (lower_char d) = Ascii.eqb "?" d.
Proof. destruct d as [[] [] [] [] [] [] [] []]; reflexivity. Qed.

Lemma lower_without_query (url : string) :
  before_sub "?" (lower url) = lower (without_query url).
Proof.
  unfold without_query. induction url as [|c url IH]; [reflexivity|].
  cbn [lower]. rewrite !before_sub_char_cons, lower_char_question.
  destruct (Ascii.eqb "?" c); [reflexivity|]. cbn [lower]. rewrite IH. reflexivity.
Qed.

Lemma general_check (url : string) :
  endswith (List.hd "" (split (lower url) "?")) "safetensors"
  = endswith (lower (without_query url)) "safetensors".
Proof. unfold split. rewrite hd_split_from, lower_without_query. reflexivity. Qed.

(** A URL of the named host with fewer than three segments cannot be
    parsed. *)
Lemma hf_parse_short (url : string) :
  endswith (lower url) "safetensors" = true ->
  (length (split (replace (replace url "http://" "") "https://" "") "/") < 3)%nat ->
  hf_parse url = Raise IndexError.
Proof.
  intros Hext Hlen. unfold hf_parse. rewrite Hext. cbn [negb].
  destruct (split _ "/") as [|a [|b [|c l]]]; simpl in *; try reflexivity. lia.
Qed.

Section Claims.

Variable hf_hub_download : string -> option string -> string -> string -> py string.

Local Abbreviation get_lora := (get_lora_from_url hf_hub_download).

Lemma returned_path_is_computed (url : string) (w w' : World) (p : string) :
  provider_of (strip url) <> NamedRepositoryHost ->
  get_lora url w = (Ok p, w') ->
  computed_cache_path w url = Some p.
Proof.
  intros Hprov H. unfold computed_cache_path. unfold get_lora_from_url in H.
  destruct (String.eqb (strip url) ""); [discriminate H|].
  destruct (startswith (strip url) "http"); [|discriminate H].
  cbn [negb orb] in *.
  destruct (provider_of (strip url)); [contradiction| |].
  - unfold civitai_branch, bind, lift, os_environ, os_path_exists, ret in H.
    destruct (civitai_fix_url (strip url)) as [u|e]; [|discriminate H].
    destruct (contains "SafeTensor" u); [|discriminate H].
    cbn [negb] in H.
    destruct (find_or_create_cache w) as [[root|e] w1] eqn:Ec; [|discriminate H].
    apply find_or_create_cache_root in Ec as ->.
    destruct (negb (path_exists (fs w1) _)).
    + destruct (download_file _ _ w1) as [[[]|e] w2]; [|discriminate H].
      injection H as <- _. reflexivity.
    + injection H as <- _. reflexivity.
  - unfold general_branch, bind, os_path_exists, ret in H.
    destruct (endswith _ "safetensors"); [|discriminate H].
    cbn [negb] in H.
    destruct (find_or_create_cache w) as [[root|e] w1] eqn:Ec; [|discriminate H].
    apply find_or_create_cache_root in Ec as ->.
    destruct (negb (path_exists (fs w1) _)).
    + destruct (download_file _ _ w1) as [[[]|e] w2]; [|discriminate H].
      injection H as <- _. reflexivity.
    + injection H as <- _. reflexivity.
Qed.

Lemma computed_cache_path_basename (w : World) (url p : string) :
  computed_cache_path w url = Some p ->
  exists hashed,
    (provider_of (strip url) = GenericHost /\ hashed = strip url \/
     provider_of (strip url) = MarketplaceHost /\
     civitai_fix_url (strip url) = Ok hashed) /\
    os_path_basename p = get_filename_from_url hashed "safetensors".
Proof.
  unfold computed_cache_path. intros H.
  destruct (String.eqb (strip url) "" || negb (startswith (strip url) "http"));
    [discriminate H|].
  destruct (provider_of (strip url)); [discriminate H| |].
  - destruct (civitai_fix_url (strip url)) as [u|e]; [|discriminate H].
    destruct (contains "SafeTensor" u); [|discriminate H].
    injection H as <-. exists u. split; [right; split; reflexivity|].
    apply os_path_basename_join2, get_filename_from_url_no_slash.
  - destruct (endswith _ "safetensors"); [|discriminate H].
    injection H as <-. exists (strip url). split; [left; split; reflexivity|].
    apply os_path_basename_join2, get_filename_from_url_no_slash.
Qed.

(** C4. The cache filename is a function of the URL alone: two runs on
    the same URL of the marketplace or of a generic host, in any two
    worlds (with or without an API key in the environment), return paths
    with the same file name, and that name is the digest of the URL as it
    is before the key is added: the trimmed URL for a generic host, the
    URL after the version-id rewrite for the marketplace. *)
Theorem cache_filename_depends_on_url_only
    (url : string) (w1 w2 w1' w2' : World) (p1 p2 : string) :
  provider_of (strip url) <> NamedRepositoryHost ->
  get_lora url w1 = (Ok p1, w1') ->
  get_lora url w2 = (Ok p2, w2') ->
  os_path_basename p1 = os_path_basename p2 /\
  exists hashed,
    (provider_of (strip url) = GenericHost /\ hashed = strip url \/
     provider_of (strip url) = MarketplaceHost /\
     civitai_fix_url (strip url) = Ok hashed) /\
    os_path_basename p1 = get_filename_from_url hashed "safetensors".
Proof.
  intros Hprov H1 H2.
  apply returned_path_is_computed in H1; [|exact Hprov].
  apply returned_path_is_computed in H2; [|exact Hprov].
  destruct (computed_cache_path_basename _ _ _ H1) as (h1 & Hh1 & Hb1).
  destruct (computed_cache_path_basename _ _ _ H2) as (h2 & Hh2 & Hb2).
  split; [|exists h1; auto].
  rewrite Hb1, Hb2. f_equal.
  destruct Hh1 as [[E1 ->]|[E1 F1]], Hh2 as [[E2 ->]|[E2 F2]]; congruence.
Qed.

(** C1. The blob URL with the download flag is cut and rewritten to the
    resolve URL, and [hf_hub_download] is called with repository
    [owner/repo], subfolder [sub] and file [file.safetensors]; the resolve
    form of the same URL is parsed to the same target. *)
Theorem named_host_example :
  provider_of
    (strip "https://huggingface.co/owner/repo/blob/main/sub/file.safetensors?download=true")
    = NamedRepositoryHost /\
  hf_normalize
    "https://huggingface.co/owner/repo/blob/main/sub/file.safetensors?download=true"
    = "https://huggingface.co/owner/repo/resolve/main/sub/file.safetensors" /\
  hf_parse
    (hf_normalize
       "https://huggingface.co/owner/repo/blob/main/sub/file.safetensors?download=true")
    = Ok (mkTarget "owner/repo" (Some "sub") "file.safetensors") /\
  hf_parse
    (hf_normalize
       "https://huggingface.co/owner/repo/resolve/main/sub/file.safetensors")
    = Ok (mkTarget "owner/repo" (Some "sub") "file.safetensors") /\
  forall w,
    get_lora
      "https://huggingface.co/owner/repo/blob/main/sub/file.safetensors?download=true" w
    = (let! cache_dir := find_or_create_cache in
       hf_hub_download "owner/repo" (Some "sub") "file.safetensors" cache_dir) w.
Proof. repeat split; vm_compute; reflexivity. Qed.

(** C2, amended. When the first [modelVersionId=] of the URL is followed
    by [id], and [id] ends at the end of the URL or at an ampersand, the
    rewrite yields the download URL of [id], whatever stands before and
    after. *)
Theorem version_id_rewrite_first_occurrence (pre id post : string) :
  contains "modelVersionId=" (pre +:+ "modelVersionId") = false ->
  contains "&" id = false ->
  contains "modelVersionId=" id = false ->
  post = "" \/ startswith post "&" = true ->
  civitai_fix_url (pre +:+ "modelVersionId=" +:+ id +:+ post)
  = Ok ("https://civitai.com/api/download/models/" +:+ id
        +:+ "?type=Model&format=SafeTensor").
Proof. apply civitai_fix_url_first. Qed.

(** C3. A URL of the marketplace or of a generic host whose cache path
    exists is answered with that path, and the world is left as it was:
    no request is sent, no file is touched. *)
Theorem cache_hit_returns_at_once (w : World) (url p : string) :
  fs_wf w ->
  computed_cache_path w url = Some p ->
  path_exists (fs w) p = true ->
  get_lora url w = (Ok p, w).
Proof.
  intros Hwf Hp Hex. unfold computed_cache_path in Hp. unfold get_lora_from_url.
  destruct (String.eqb (strip url) ""); [discriminate Hp|].
  destruct (startswith (strip url) "http"); [|discriminate Hp].
  cbn [negb orb] in *.
  destruct (provider_of (strip url)); [discriminate Hp| |].
  - unfold civitai_branch, bind, lift.
    destruct (civitai_fix_url (strip url)) as [u|e]; [|discriminate Hp].
    destruct (contains "SafeTensor" u); [|discriminate Hp].
    injection Hp as <-. cbn [negb]. unfold os_environ.
    rewrite (cached_file_found w "civitai" _ Hwf eq_refl ltac:(done) eq_refl
               (get_filename_from_url_no_slash u) Hex).
    unfold os_path_exists, os_path_join in Hex |- *.
    cbn [fold_left fs] in Hex |- *. rewrite Hex. reflexivity.
  - unfold general_branch, bind.
    destruct (endswith _ "safetensors"); [|discriminate Hp].
    injection Hp as <-. cbn [negb].
    rewrite (cached_file_found w "general" _ Hwf eq_refl ltac:(done) eq_refl
               (get_filename_from_url_no_slash (strip url)) Hex).
    unfold os_path_exists, os_path_join in Hex |- *.
    cbn [fold_left fs] in Hex |- *. rewrite Hex. reflexivity.
Qed.

(** C5, amended. A URL of a generic host whose text before the query
    string does not end, whatever the case, in [safetensors] is refused
    with a [ValueError]; a URL of the marketplace is refused with a
    [ValueError] when, after the version-id rewrite, it lacks the marker
    [SafeTensor], and its extension is not looked at. *)
Theorem unsupported_url_rejected (url : string) (w : World) :
  strip url <> "" ->
  startswith (strip url) "http" = true ->
  (provider_of (strip url) = GenericHost /\
   endswith (lower (without_query (strip url))) "safetensors" = false) \/
  (provider_of (strip url) = MarketplaceHost /\
   exists u, civitai_fix_url (strip url) = Ok u /\
             contains "SafeTensor" u = false) ->
  get_lora url w =
    (Raise (ValueError "Only safetensors files are supported for security reasons."), w)
  /\ InvalidInputError
       (ValueError "Only safetensors files are supported for security reasons.")
     = true.
Proof.
  intros Hne Hhttp Hcase. split; [|reflexivity]. unfold get_lora_from_url.
  destruct (String.eqb (strip url) "") eqn:E;
    [apply String.eqb_eq in E; contradiction|].
  rewrite Hhttp. cbn [negb].
  destruct Hcase as [[-> Hext]|[-> (u & Hu & Hmark)]].
  - unfold general_branch. rewrite general_check, Hext. reflexivity.
  - unfold civitai_branch, bind, lift. rewrite Hu, Hmark. reflexivity.
Qed.


(** C7. When the directories could be made and the GET is answered with
    a status other than 200, [download_file] raises its exception with
    that status, exactly one request is on record, and the regular files
    are what they were: the destination is neither created nor written. *)
Theorem download_file_non_200
    (url filename : string) (w w1 : World) (status : Z) (body : string) :
  os_makedirs (os_path_dirname filename) w = (Ok tt, w1) ->
  http w url = Response status body ->
  status <> 200 ->
  exists w',
    download_file url filename w =
      (Raise (Exception ("Failed to download file. Status code: "
                         +:+ str_of_int status)), w') /\
    DownloadError (Exception ("Failed to download file. Status code: "
                              +:+ str_of_int status)) = true /\
    files_of (fs w') = files_of (fs w) /\
    requests_log w' = requests_log w ++ [url].
Proof.
  intros Hmk Hresp Hstatus.
  pose proof (os_makedirs_only_dirs _ _ _ _ Hmk)
    as (Hfiles & _ & _ & Hhttp & Hlog & _).
  unfold download_file, bind. rewrite Hmk.
  unfold requests_get. rewrite Hhttp, Hresp.
  apply Z.eqb_neq in Hstatus. rewrite Hstatus.
  eexists. split; [reflexivity|]. simpl. rewrite Hlog. auto.
Qed.

(** Whatever makes [download_file] fail, the regular files are what they
    were. *)
Lemma download_file_failure_keeps_files
    (url filename : string) (w w' : World) (e : exn) :
  download_file url filename w = (Raise e, w') ->
  files_of (fs w') = files_of (fs w).
Proof.
  unfold download_file, bind. intros H.
  destruct (os_makedirs (os_path_dirname filename) w) as [[[]|e1] w1] eqn:Hmk;
    apply os_makedirs_only_dirs in Hmk as (Hfiles & _).
  - unfold requests_get in H.
    destruct (http w1 url) as [status body|].
    + destruct (status =? 200).
      * unfold write_file in H. cbn [fs] in H.
        repeat match type of H with
               | context [match ?x with _ => _ end] => destruct x
               end; try discriminate H; injection H as _ <-; exact Hfiles.
      * injection H as _ <-. exact Hfiles.
    + injection H as _ <-. exact Hfiles.
  - injection H as _ <-. exact Hfiles.
Qed.


(** The text is matched inside a longer parameter name as well. *)
Lemma version_id_rewrite_inside_longer_name (pre name id post : string) :
  contains "modelVersionId=" ((pre +:+ name) +:+ "modelVersionId") = false ->
  contains "&" id = false ->
  contains "modelVersionId=" id = false ->
  post = "" \/ startswith post "&" = true ->
  civitai_fix_url (pre +:+ name +:+ "modelVersionId=" +:+ id +:+ post)
  = Ok (civitai_download_url id).
Proof. rewrite <- (app_assoc pre name). apply civitai_fix_url_first. Qed.

(** C10. The named-host branch reads [parts[1]] and [parts[2]] without a
    check: a URL with fewer than three segments raises [IndexError]. *)
Theorem short_named_host_url_index_error :
  exists url,
    strip url <> "" /\
    startswith (strip url) "http" = true /\
    provider_of (strip url) = NamedRepositoryHost /\
    endswith url ".safetensors" = true /\
    (length (split (replace (replace url "http://" "") "https://" "") "/") < 3)%nat /\
    forall w,
      get_lora url w = (Raise IndexError, w) /\ InvalidInputError IndexError = false.
Proof.
  exists "https://huggingface.co/file.safetensors".
  repeat split; try (vm_compute; (reflexivity || lia || done)).
Qed.

(** *** The node *)

Context {MODEL LORA : Type}.
Variable load_torch_file : string -> py LORA.
Variable load_lora_for_models : MODEL -> LORA -> PrimFloat.float -> py MODEL.

(** C9. With a strength equal to zero the method returns the model it was
    given; the node and the world are left as they were. *)
Theorem zero_strength_short_circuit
    (self : LoadLoraModelOnlyWithUrl) (model : MODEL) (url : string)
    (strength_model : PrimFloat.float) (w : World) :
  PrimFloat.eqb strength_model PrimFloat.zero = true ->
  load_lora_model_only_from_url hf_hub_download load_torch_file
    load_lora_for_models self model url strength_model w
  = (Ok model, self, w).
Proof.
  intros H. unfold load_lora_model_only_from_url. rewrite H. reflexivity.
Qed.

End Claims.

(** ** The theorems at work, and the inputs that refute the claims amended *)

(** C2 as stated fails: a parameter [modelVersionId] of value [5000] is
    present, and the URL is rewritten for the value of another parameter. *)
Lemma other_parameter_changes_the_rewrite :
  provider_of "https://civitai.com/models/111?xmodelVersionId=7&modelVersionId=5000"
    = MarketplaceHost /\
  has_query_param
    "https://civitai.com/models/111?xmodelVersionId=7&modelVersionId=5000"
    "modelVersionId" "5000" = true /\
  civitai_fix_url
    "https://civitai.com/models/111?xmodelVersionId=7&modelVersionId=5000"
    = Ok "https://civitai.com/api/download/models/7?type=Model&format=SafeTensor" /\
  civitai_fix_url
    "https://civitai.com/models/111?xmodelVersionId=7&modelVersionId=5000"
    <> Ok "https://civitai.com/api/download/models/5000?type=Model&format=SafeTensor".
Proof. repeat split; try (vm_compute; reflexivity). vm_compute. discriminate. Qed.

Lemma rewrite_of_version_5000 :
  civitai_fix_url "https://civitai.com/models/111?modelVersionId=5000"
  = Ok "https://civitai.com/api/download/models/5000?type=Model&format=SafeTensor".
Proof.
  apply (version_id_rewrite_first_occurrence "https://civitai.com/models/111?" "5000" "").
  - vm_compute. reflexivity.
  - vm_compute. reflexivity.
  - vm_compute. reflexivity.
  - left. reflexivity.
Defined.

Lemma cache_hit_example :
  get_lora_from_url Sample.hub "https://example.com/weights.safetensors?v=2"
    Sample.cached
  = (Ok "/srv/huggingface_cache/general/3a0b19ae124c9a1c3e7d0c0bfe059621.safetensors",
     Sample.cached).
Proof.
  apply (cache_hit_returns_at_once Sample.hub Sample.cached).
  - apply (bool_decide_unpack (fs_wf Sample.cached)). vm_compute. exact I.
  - vm_compute. reflexivity.
  - vm_compute. reflexivity.
Defined.

Lemma cache_filename_ignores_api_key :
  os_path_basename
    "/srv/ComfyUI/models/huggingface_cache/civitai/1e1f20f94c4b5cb4a4277cfb8fc2abdf.safetensors"
  = os_path_basename
    "/srv/huggingface_cache/civitai/1e1f20f94c4b5cb4a4277cfb8fc2abdf.safetensors" /\
  exists hashed,
    (provider_of (strip "https://civitai.com/models/111?modelVersionId=5000")
       = GenericHost /\
     hashed = strip "https://civitai.com/models/111?modelVersionId=5000" \/
     provider_of (strip "https://civitai.com/models/111?modelVersionId=5000")
       = MarketplaceHost /\
     civitai_fix_url (strip "https://civitai.com/models/111?modelVersionId=5000")
       = Ok hashed) /\
    os_path_basename
      "/srv/ComfyUI/models/huggingface_cache/civitai/1e1f20f94c4b5cb4a4277cfb8fc2abdf.safetensors"
    = get_filename_from_url hashed "safetensors".
Proof.
  apply (cache_filename_depends_on_url_only Sample.hub
           "https://civitai.com/models/111?modelVersionId=5000"
           Sample.fresh_with_key Sample.cached
           (snd (get_lora_from_url Sample.hub
                   "https://civitai.com/models/111?modelVersionId=5000"
                   Sample.fresh_with_key))
           Sample.cached).
  - vm_compute. discriminate.
  - vm_compute. reflexivity.
  - vm_compute. reflexivity.
Defined.

(** C5 as stated fails: a marketplace URL ending in [.ckpt] is not refused. *)
Lemma marketplace_extension_unchecked :
  provider_of (strip "https://civitai.com/models/111/file.ckpt?modelVersionId=5000")
    = MarketplaceHost /\
  has_supported_extension
    "https://civitai.com/models/111/file.ckpt?modelVersionId=5000" = false /\
  get_lora_from_url Sample.hub
    "https://civitai.com/models/111/file.ckpt?modelVersionId=5000" Sample.cached
  = (Ok "/srv/huggingface_cache/civitai/1e1f20f94c4b5cb4a4277cfb8fc2abdf.safetensors",
     Sample.cached).
Proof. repeat split; vm_compute; reflexivity. Qed.

Lemma checkpoint_url_refused :
  get_lora_from_url Sample.hub "https://example.com/model.ckpt?name=a.safetensors"
    Sample.fresh
  = (Raise (ValueError "Only safetensors files are supported for security reasons."),
     Sample.fresh)
  /\ InvalidInputError
       (ValueError "Only safetensors files are supported for security reasons.")
     = true.
Proof.
  apply (unsupported_url_rejected Sample.hub
           "https://example.com/model.ckpt?name=a.safetensors" Sample.fresh).
  - vm_compute. discriminate.
  - vm_compute. reflexivity.
  - left. split; vm_compute; reflexivity.
Defined.



Lemma status_404_leaves_no_file :
  exists w',
    download_file "https://example.com/missing.safetensors"
      "/srv/cache/general/missing.safetensors" Sample.fresh
    = (Raise (Exception "Failed to download file. Status code: 404"), w') /\
    DownloadError (Exception "Failed to download file. Status code: 404") = true /\
    files_of (fs w') = files_of (fs Sample.fresh) /\
    requests_log w' = ["https://example.com/missing.safetensors"].
Proof.
  apply (download_file_non_200 "https://example.com/missing.safetensors"
           "/srv/cache/general/missing.safetensors" Sample.fresh
           (snd (os_makedirs "/srv/cache/general" Sample.fresh)) 404 "not found").
  - vm_compute. reflexivity.
  - vm_compute. reflexivity.
  - lia.
Defined.


Lemma zero_strength_example :
  load_lora_model_only_from_url Sample.hub Sample.load_torch_file
    Sample.load_lora_for_models new_node "base model"
    "https://example.com/weights.safetensors?v=2" PrimFloat.zero Sample.fresh
  = (Ok "base model", new_node, Sample.fresh).
Proof.
  apply (zero_strength_short_circuit Sample.hub Sample.load_torch_file
           Sample.load_lora_for_models).
  reflexivity.
Defined.

(** ** Runs of the program *)

Example split_keeps_empty_fields : split "a,,b," "," = ["a"; ""; "b"; ""].
Proof. reflexivity. Qed.

Example split_does_not_overlap : split "aXYbXYXYc" "XY" = ["a"; "b"; ""; "c"].
Proof. reflexivity. Qed.

Example replace_every_occurrence :
  replace "a/blob/b/blob/c" "/blob/" "/resolve/" = "a/resolve/b/resolve/c".
Proof. reflexivity. Qed.

Example lower_ascii : lower "AbZ[@az.Q" = "abz[@az.q".
Proof. reflexivity. Qed.

Example md5_of_empty : MD5.hexdigest "" = "d41d8cd98f00b204e9800998ecf8427e".
Proof. vm_compute. reflexivity. Qed.

Example md5_of_abc : MD5.hexdigest "abc" = "900150983cd24fb0d6963f7d28e17f72".
Proof. vm_compute. reflexivity. Qed.

Example md5_of_two_blocks :
  MD5.hexdigest "aaaaaaaaaaaaaaaaaaaaaaaaaaaaaaaaaaaaaaaaaaaaaaaaaaaaaaaaaaaaaaaa"
  = "014842d480b571495a4a0363793f7367".
Proof. vm_compute. reflexivity. Qed.

(** The generic URL of the specification is stored under the digest of the
    whole URL, query string included. *)
Example generic_download :
  fst (get_lora_from_url Sample.hub "https://example.com/weights.safetensors?v=2"
         Sample.fresh)
  = Ok "/srv/ComfyUI/models/huggingface_cache/general/3a0b19ae124c9a1c3e7d0c0bfe059621.safetensors".
Proof. vm_compute. reflexivity. Qed.

(** The API key is in the request and not in the file name. *)
Example marketplace_download_with_key :
  let r := get_lora_from_url Sample.hub
             "https://civitai.com/models/111?modelVersionId=5000"
             Sample.fresh_with_key in
  fst r = Ok "/srv/ComfyUI/models/huggingface_cache/civitai/1e1f20f94c4b5cb4a4277cfb8fc2abdf.safetensors"
  /\ requests_log (snd r)
     = ["https://civitai.com/api/download/models/5000?type=Model&format=SafeTensor&token=secret"].
Proof. split; vm_compute; reflexivity. Qed.

(** A status other than 200 leaves the directories behind and no file. *)
Example failed_download_leaves_no_file :
  let r := get_lora_from_url Sample.hub "https://example.com/missing.safetensors"
             Sample.fresh in
  fst r = Raise (Exception "Failed to download file. Status code: 404")
  /\ files_of (fs (snd r)) = ∅
  /\ path_isdir (fs (snd r)) "/srv/ComfyUI/models/huggingface_cache/general" = true.
Proof. repeat split; vm_compute; reflexivity. Qed.

(** * Further properties *)

(** ** Downloads and the cache directory *)

Lemma files_of_insert_file (m : gmap string node) (p c : string) :
  files_of (<[p := File c]> m) = <[p := c]> (files_of m).
Proof.
  apply map_eq. intros q. unfold files_of. rewrite lookup_omap.
  destruct (decide (p = q)) as [->|Hne].
  - rewrite !lookup_insert_eq. reflexivity.
  - rewrite !lookup_insert_ne by exact Hne. rewrite lookup_omap. reflexivity.
Qed.

Lemma write_file_ok (filename content : string) (w w' : World) :
  write_file filename content w = (Ok tt, w') ->
  w' = set_fs w (<[filename := File content]> (fs w)).
Proof.
  unfold write_file. intros H.
  destruct (fs w !! filename) as [[c|]|];
    destruct (fs w !! parent_of w filename) as [[c'|]|];
    try discriminate H; injection H as <-; reflexivity.
Qed.

Lemma write_file_raise (filename content : string) (w w' : World) (e : exn) :
  write_file filename content w = (Raise e, w') -> w' = w.
Proof.
  unfold write_file. intros H.
  destruct (fs w !! filename) as [[c|]|];
    destruct (fs w !! parent_of w filename) as [[c'|]|];
    try discriminate H; injection H as _ <-; reflexivity.
Qed.

(** What a download that returned has done. *)
Lemma download_file_returns (url filename : string) (w w' : World) :
  download_file url filename w = (Ok tt, w') ->
  exists body,
    http w url = Response 200 body /\
    fs w' !! filename = Some (File body) /\
    files_of (fs w') = <[filename := body]> (files_of (fs w)) /\
    requests_log w' = requests_log w ++ [url].
Proof.
  unfold download_file, bind. intros H.
  destruct (os_makedirs (os_path_dirname filename) w) as [[[]|e1] w1] eqn:Hmk;
    [|discriminate H].
  apply os_makedirs_only_dirs in Hmk as (Hfiles & _ & _ & Hhttp & Hlog & _).
  unfold requests_get in H. rewrite Hhttp in H.
  destruct (http w url) as [status body|]; [|discriminate H].
  destruct (status =? 200) eqn:Es; [|discriminate H].
  apply Z.eqb_eq in Es as ->. apply write_file_ok in H as ->.
  exists body. cbn [fs set_fs requests_log].
  rewrite lookup_insert_eq, files_of_insert_file, Hfiles, Hlog. auto.
Qed.

(** What a download that failed has done. *)
Lemma download_file_fails (url filename : string) (w w' : World) (e : exn) :
  download_file url filename w = (Raise e, w') ->
  files_of (fs w') = files_of (fs w) /\
  (requests_log w' = requests_log w \/ requests_log w' = requests_log w ++ [url]).
Proof.
  unfold download_file, bind. intros H.
  destruct (os_makedirs (os_path_dirname filename) w) as [[[]|e1] w1] eqn:Hmk;
    apply os_makedirs_only_dirs in Hmk as (Hfiles & _ & _ & Hhttp & Hlog & _).
  - unfold requests_get in H.
    destruct (http w1 url) as [status body|].
    + destruct (status =? 200).
      * apply write_file_raise in H as ->. cbn [fs requests_log].
        rewrite Hlog. auto.
      * injection H as _ <-. cbn [fs requests_log]. rewrite Hlog. auto.
    + injection H as _ <-. cbn [fs requests_log]. rewrite Hlog. auto.
  - injection H as _ <-. auto.
Qed.

Lemma path_exists_insert (m : gmap string node) (q x : string) (n : node) :
  path_exists (<[q := n]> m) x = if decide (q = x) then true else path_exists m x.
Proof.
  unfold path_exists. destruct (decide (q = x)) as [->|Hne].
  - rewrite lookup_insert_eq. reflexivity.
  - rewrite lookup_insert_ne by exact Hne. reflexivity.
Qed.

(** The cache directory is found by probing two paths only. *)
Lemma cache_root_ext (w w' : World) :
  cwd w' = cwd w ->
  (forall a, path_exists (fs w') (os_path_join2 a "ComfyUI")
             = path_exists (fs w) (os_path_join2 a "ComfyUI")) ->
  (forall a, path_exists (fs w') (os_path_join2 a "models")
             = path_exists (fs w) (os_path_join2 a "models")) ->
  cache_root w' = cache_root w.
Proof.
  intros Hcwd H1 H2. unfold cache_root, cache_parent, os_path_join.
  cbn [fold_left]. rewrite Hcwd, H1.
  destruct (path_exists (fs w) (os_path_join2 (cwd w) "ComfyUI"));
    rewrite H2; reflexivity.
Qed.

Lemma os_path_join2_ne (a b x y : string) :
  mem_char "/" b = false -> mem_char "/" y = false -> b <> y ->
  os_path_join2 a b <> os_path_join2 x y.
Proof.
  intros Hb Hy Hne E. apply (f_equal os_path_basename) in E.
  rewrite !os_path_basename_join2 in E by assumption. contradiction.
Qed.

(** Entries whose last component is neither [ComfyUI] nor [models] do not
    move the cache. *)
Lemma cache_root_frame (w w' : World) :
  cwd w' = cwd w ->
  (forall q, os_path_basename q = "ComfyUI" \/ os_path_basename q = "models" ->
             path_exists (fs w') q = path_exists (fs w) q) ->
  cache_root w' = cache_root w.
Proof.
  intros Hcwd H. apply cache_root_ext; [exact Hcwd| |]; intros a; apply H.
  - left. apply os_path_basename_join2. reflexivity.
  - right. apply os_path_basename_join2. reflexivity.
Qed.

Lemma os_mkdir_cases (p : string) (w w' : World) (r : result unit) :
  os_mkdir p w = (r, w') ->
  (exists e, r = Raise e /\ w' = w) \/
  (r = Ok tt /\ fs w !! p = None /\ w' = set_fs w (<[p := Dir]> (fs w))).
Proof.
  unfold os_mkdir. intros H. destruct (fs w !! p) eqn:Ep.
  - injection H as <- <-. left. eauto.
  - destruct (fs w !! parent_of w p) as [[c|]|]; injection H as <- <-; eauto.
Qed.

Lemma find_or_create_cache_cases (w w' : World) (r : result string) :
  find_or_create_cache w = (r, w') ->
  (path_exists (fs w) (cache_root w) = true /\ r = Ok (cache_root w) /\ w' = w) \/
  (path_exists (fs w) (cache_root w) = false /\
   let wp := printed "Creating huggingface_cache directory within comfy" w in
   ((exists e, r = Raise e /\ w' = wp) \/
    (r = Ok (cache_root w) /\
     w' = set_fs wp (<[cache_root w := Dir]> (fs w))))).
Proof.
  intros H. destruct (path_exists (fs w) (cache_root w)) eqn:E.
  - left. rewrite (find_or_create_cache_hit w E) in H. injection H as <- <-. auto.
  - right. split; [reflexivity|]. cbv zeta.
    revert H E.
    unfold cache_root, cache_parent, find_or_create_cache, bind, os_getcwd,
      os_path_exists, ret, print.
    cbv zeta.
    set (c1 := if path_exists (fs w) (os_path_join (cwd w) ["ComfyUI"])
               then os_path_join (cwd w) ["ComfyUI"] else cwd w).
    set (c2 := if path_exists (fs w) (os_path_join c1 ["models"])
               then os_path_join c1 ["models"] else c1).
    intros H E. rewrite E in H. cbn [negb] in H.
    fold (printed "Creating huggingface_cache directory within comfy" w) in H.
    destruct (os_mkdir _ _) as [r0 v] eqn:Em.
    apply os_mkdir_cases in Em as [(e & -> & ->)|(-> & _ & ->)].
    + injection H as <- <-. left. eauto.
    + injection H as <- <-. right. split; reflexivity.
Qed.

(** Once found or created, the cache directory is found again. *)
Lemma find_or_create_cache_again (w w' : World) (root : string) :
  find_or_create_cache w = (Ok root, w') ->
  path_exists (fs w') root = true /\
  (fs w' = fs w \/ fs w' = <[root := Dir]> (fs w)) /\
  find_or_create_cache w' = (Ok root, w').
Proof.
  intros H. apply find_or_create_cache_cases in H
    as [(E & [= ->] & ->)|(E & [(e & [=] & _)|([= ->] & ->)])].
  - split; [exact E|]. split; [left; reflexivity|].
    apply find_or_create_cache_hit, E.
  - cbv zeta. cbn [fs set_fs printed].
    assert (Hex : path_exists (<[cache_root w := Dir]> (fs w)) (cache_root w) = true).
    { rewrite path_exists_insert. destruct (decide _); [reflexivity|contradiction]. }
    split; [exact Hex|]. split; [right; reflexivity|].
    match goal with |- find_or_create_cache ?v = _ =>
      assert (Hroot : cache_root v = cache_root w) end.
    { apply cache_root_frame; [reflexivity|]. intros q Hq. cbn [fs set_fs printed].
      rewrite path_exists_insert. destruct (decide (cache_root w = q)) as [<-|]; [|reflexivity].
      exfalso. unfold cache_root, os_path_join in Hq. cbn [fold_left] in Hq.
      rewrite os_path_basename_join2 in Hq by reflexivity.
      destruct Hq; discriminate. }
    match goal with |- find_or_create_cache ?v = _ =>
      pose proof (find_or_create_cache_hit v) as Hh end.
    rewrite Hroot in Hh. apply Hh. exact Hex.
Qed.

Lemma rstrip_slash_no_slash (s : string) :
  mem_char "/" s = false -> rstrip_slash s = s.
Proof.
  induction s as [|c s IH]; [reflexivity|]. cbn [mem_char rstrip_slash].
  intros H. apply orb_false_elim in H as [Hc Hs]. rewrite (IH Hs).
  destruct s; [|reflexivity]. rewrite Ascii.eqb_sym, Hc. reflexivity.
Qed.

Lemma cache_name_tidy (a s : string) :
  cache_name s ->
  rstrip_slash (os_path_join2 a s) = os_path_join2 a s /\ os_path_join2 a s <> "".
Proof.
  intros (Hs & Hne & _). apply os_path_join2_keeps_tidy;
    auto using rstrip_slash_no_slash, startswith_slash_mem.
Qed.

Lemma get_filename_from_url_cache_name (url : string) :
  cache_name (get_filename_from_url url "safetensors").
Proof.
  split; [apply get_filename_from_url_no_slash|].
  assert (Hdot : mem_char "." (get_filename_from_url url "safetensors") = true).
  { unfold get_filename_from_url. rewrite !mem_char_app. cbn. apply orb_true_r. }
  repeat split; intros E; rewrite E in Hdot; discriminate Hdot.
Qed.

Lemma os_path_split_join2 (a b : string) :
  rstrip_slash a = a -> a <> "" -> mem_char "/" b = false ->
  os_path_split (os_path_join2 a b) = (a, b).
Proof.
  intros Ha Hne Hb.
  rewrite os_path_join2_tidy by auto using startswith_slash_mem.
  unfold os_path_split. rewrite rsplit_slash_app by exact Hb.
  rewrite rstrip_slash_app_slash, Ha. destruct a; [contradiction|reflexivity].
Qed.

(** In an existing directory [os.makedirs] is one [os.mkdir] whose error is
    forgiven when the directory is there. *)
Lemma os_makedirs_in_existing (a b : string) (w : World) :
  rstrip_slash a = a -> a <> "" -> mem_char "/" b = false -> b <> "" ->
  path_exists (fs w) a = true ->
  os_makedirs (os_path_join2 a b) w =
  match os_mkdir (os_path_join2 a b) w with
  | (Raise e, w') =>
      if path_isdir (fs w') (os_path_join2 a b) then (Ok tt, w') else (Raise e, w')
  | r => r
  end.
Proof.
  intros Ha Hne Hb Hbne Hex. unfold os_makedirs. cbn [os_makedirs_fuel].
  rewrite os_path_split_join2 by assumption.
  destruct (String.eqb b "") eqn:Eb; [apply String.eqb_eq in Eb; contradiction|].
  rewrite Hex, andb_false_r. reflexivity.
Qed.

Lemma os_makedirs_in_existing_cases (a b : string) (w w' : World) (r : result unit) :
  rstrip_slash a = a -> a <> "" -> mem_char "/" b = false -> b <> "" ->
  path_exists (fs w) a = true ->
  os_makedirs (os_path_join2 a b) w = (r, w') ->
  (w' = w /\ (r = Ok tt -> path_isdir (fs w) (os_path_join2 a b) = true)) \/
  (r = Ok tt /\ fs w !! os_path_join2 a b = None /\
   w' = set_fs w (<[os_path_join2 a b := Dir]> (fs w))).
Proof.
  intros Ha Hne Hb Hbne Hex H.
  rewrite os_makedirs_in_existing in H by assumption.
  destruct (os_mkdir (os_path_join2 a b) w) as [r0 v] eqn:Em.
  apply os_mkdir_cases in Em as [(e & -> & ->)|(-> & Hnone & ->)].
  - left. destruct (path_isdir (fs w) (os_path_join2 a b)) eqn:Ed;
      injection H as <- <-; split; auto. discriminate.
  - injection H as <- <-. right. auto.
Qed.

(** What a download into the cache can change: the provider directory and
    the file. *)
Lemma download_into_cache_frame
    (requested root sub name : string) (w w' : World) (r : result unit) :
  rstrip_slash root = root -> root <> "" -> cache_name sub -> cache_name name ->
  path_exists (fs w) root = true ->
  download_file requested (os_path_join root [sub; name]) w = (r, w') ->
  cwd w' = cwd w /\ environ w' = environ w /\ http w' = http w /\
  (forall q, q <> os_path_join2 root sub -> q <> os_path_join root [sub; name] ->
             fs w' !! q = fs w !! q) /\
  (forall q, path_exists (fs w) q = true -> path_exists (fs w') q = true).
Proof.
  intros Hr Hrne Hsub Hname Hex H.
  destruct (cache_name_tidy root sub Hsub) as [Ht Htne].
  destruct Hsub as (Hs & Hsne & _). pose proof Hname as (Hn & Hnne & _).
  unfold os_path_join in *. cbn [fold_left] in *.
  unfold download_file, bind in H.
  rewrite os_path_dirname_join2 in H by assumption.
  destruct (os_makedirs (os_path_join2 root sub) w) as [r1 w1] eqn:Hmk.
  assert (Hw1 : cwd w1 = cwd w /\ environ w1 = environ w /\ http w1 = http w /\
    (forall q, q <> os_path_join2 root sub -> fs w1 !! q = fs w !! q) /\
    (forall q, path_exists (fs w) q = true -> path_exists (fs w1) q = true)).
  { apply os_makedirs_in_existing_cases in Hmk
      as [[-> _]|(_ & Hnone & ->)]; try assumption.
    - repeat split; auto.
    - cbn [fs cwd environ http set_fs]. repeat split; auto.
      + intros q Hq. apply lookup_insert_ne. congruence.
      + intros q Hq. rewrite path_exists_insert. destruct (decide _); auto. }
  destruct Hw1 as (Hc & He & Hh & Hf & Hm).
  destruct r1 as [[]|e1]; [|injection H as _ <-; repeat split; auto].
  unfold requests_get in H.
  destruct (http w1 requested) as [status body|];
    [|injection H as _ <-; cbn [fs cwd environ http]; repeat split; auto].
  destruct (status =? 200);
    [|injection H as _ <-; cbn [fs cwd environ http]; repeat split; auto].
  destruct r as [[]|e].
  - apply write_file_ok in H as ->. cbn [fs cwd environ http set_fs].
    repeat split; auto.
    + intros q Hq1 Hq2. rewrite lookup_insert_ne by congruence. auto.
    + intros q Hq. rewrite path_exists_insert. destruct (decide _); auto.
  - apply write_file_raise in H as ->. cbn [fs cwd environ http].
    repeat split; auto.
Qed.

(** A fetch that succeeded is followed by cache hits. *)
Lemma fetch_into_cache_again
    (requested requested' sub name p : string) (w w' : World) :
  cache_name sub -> cache_name name ->
  fetch_into_cache requested sub name w = (Ok p, w') ->
  fetch_into_cache requested' sub name w' = (Ok p, w').
Proof.
  intros Hsub Hname H. unfold fetch_into_cache, bind, os_path_exists, ret in H.
  destruct (find_or_create_cache w) as [[root|e] w1] eqn:Hc; [|discriminate H].
  pose proof (find_or_create_cache_root _ _ _ Hc) as Hroot.
  apply find_or_create_cache_again in Hc as (Hex & _ & Hagain).
  pose proof (find_or_create_cache_root _ _ _ Hagain) as Hroot1.
  destruct (path_exists (fs w1) (os_path_join root [sub; name])) eqn:Ep.
  - injection H as <- <-.
    unfold fetch_into_cache, bind, os_path_exists, ret.
    rewrite Hagain, Ep. reflexivity.
  - cbn [negb] in H.
    destruct (download_file requested _ w1) as [[[]|e] w2] eqn:Hd; [|discriminate H].
    injection H as <- <-.
    destruct (cache_root_tidy w1) as [Ht Htne]. rewrite <- Hroot1 in Ht, Htne.
    pose proof (download_into_cache_frame _ _ _ _ _ _ _ Ht Htne Hsub Hname Hex Hd)
      as (Hcwd & _ & _ & Hframe & Hmono).
    apply download_file_returns in Hd as (body & _ & Hp & _).
    assert (Hroot2 : cache_root w2 = root).
    { rewrite Hroot1. apply cache_root_frame; [exact Hcwd|].
      intros q Hq. unfold path_exists. rewrite Hframe; [reflexivity| |].
      - intros ->. rewrite os_path_basename_join2 in Hq by apply Hsub.
        destruct Hsub as (_ & _ & ? & ?). destruct Hq; contradiction.
      - intros ->. unfold os_path_join in Hq. cbn [fold_left] in Hq.
        rewrite os_path_basename_join2 in Hq by apply Hname.
        destruct Hname as (_ & _ & ? & ?). destruct Hq; contradiction. }
    unfold fetch_into_cache, bind, os_path_exists, ret.
    rewrite (find_or_create_cache_hit w2) by (rewrite Hroot2; apply Hmono, Hex).
    rewrite Hroot2. unfold path_exists at 1. rewrite Hp. reflexivity.
Qed.

Lemma civitai_branch_passed (url u : string) (w : World) :
  civitai_fix_url url = Ok u -> contains "SafeTensor" u = true ->
  civitai_branch url w =
  fetch_into_cache (add_api_key (environ w) u) "civitai"
    (get_filename_from_url u "safetensors") w.
Proof.
  intros Hu Hm. unfold civitai_branch, bind at 1, lift. rewrite Hu, Hm. reflexivity.
Qed.

Lemma general_branch_passed (url : string) (w : World) :
  endswith (List.hd "" (split (lower url) "?")) "safetensors" = true ->
  general_branch url w =
  fetch_into_cache url "general" (get_filename_from_url url "safetensors") w.
Proof. intros H. unfold general_branch. rewrite H. reflexivity. Qed.

Lemma cache_name_civitai : cache_name "civitai".
Proof. repeat split; done. Qed.

Lemma cache_name_general : cache_name "general".
Proof. repeat split; done. Qed.

Section Fetching.

Variable hf_hub_download : string -> option string -> string -> string -> py string.

Local Abbreviation get_lora := (get_lora_from_url hf_hub_download).

(** Away from the named host a call is refused before it has any effect, or
    it is a fetch into the cache. *)
Lemma get_lora_shape (url : string) :
  provider_of (strip url) <> NamedRepositoryHost ->
  (exists e, forall w,
     get_lora url w = (Raise e, w) /\ computed_cache_path w url = None) \/
  (exists sub name, cache_name sub /\ cache_name name /\
     forall w, exists requested,
       requested_url w url = Some requested /\
       computed_cache_path w url = Some (os_path_join (cache_root w) [sub; name]) /\
       get_lora url w = fetch_into_cache requested sub name w).
Proof.
  intros Hprov. unfold get_lora_from_url, computed_cache_path, requested_url.
  destruct (String.eqb (strip url) "");
    [left; eexists; intros w; split; reflexivity|].
  destruct (startswith (strip url) "http"); cbn [negb orb];
    [|left; eexists; intros w; split; reflexivity].
  destruct (provider_of (strip url)); [contradiction| |].
  - destruct (civitai_fix_url (strip url)) as [u|e] eqn:Eu;
      [|left; exists e; intros w; split; [|reflexivity];
        unfold civitai_branch, bind, lift; rewrite Eu; reflexivity].
    destruct (contains "SafeTensor" u) eqn:Em.
    + right. exists "civitai", (get_filename_from_url u "safetensors").
      split; [apply cache_name_civitai|].
      split; [apply get_filename_from_url_cache_name|].
      intros w. eexists. split; [reflexivity|]. split; [reflexivity|].
      apply civitai_branch_passed; assumption.
    + left. eexists. intros w. split; [|reflexivity].
      unfold civitai_branch, bind, lift. rewrite Eu, Em. reflexivity.
  - destruct (endswith _ "safetensors") eqn:Ee.
    + right. exists "general", (get_filename_from_url (strip url) "safetensors").
      split; [apply cache_name_general|].
      split; [apply get_filename_from_url_cache_name|].
      intros w. eexists. split; [reflexivity|]. split; [reflexivity|].
      apply general_branch_passed; assumption.
    + left. eexists. intros w. split; [|reflexivity].
      unfold general_branch. rewrite Ee. reflexivity.
Qed.

(** X5. Away from the named host, a call that returned a path is followed
    by cache hits: the same call in the world it left returns the same path
    and leaves that world as it is, with no further request. *)
Theorem fetched_once_then_cached (url p : string) (w w' : World) :
  provider_of (strip url) <> NamedRepositoryHost ->
  get_lora url w = (Ok p, w') ->
  get_lora url w' = (Ok p, w').
Proof.
  intros Hprov H.
  destruct (get_lora_shape url Hprov) as [(e & He)|(sub & name & Hs & Hn & Hshape)].
  - destruct (He w) as [He' _]. congruence.
  - destruct (Hshape w) as (req & _ & _ & Hw).
    destruct (Hshape w') as (req' & _ & _ & Hw').
    rewrite Hw'. rewrite Hw in H.
    apply (fetch_into_cache_again req req' sub name p w w' Hs Hn H).
Qed.

End Fetching.

Lemma find_or_create_cache_frame (w w' : World) (r : result string) :
  find_or_create_cache w = (r, w') ->
  cwd w' = cwd w /\ environ w' = environ w /\ http w' = http w /\
  requests_log w' = requests_log w /\ files_of (fs w') = files_of (fs w) /\
  (forall q, path_exists (fs w) q = true -> path_exists (fs w') q = true).
Proof.
  intros H. pose proof (find_or_create_cache_inv _ _ _ H) as (_ & _ & Hf & Hl).
  apply find_or_create_cache_cases in H
    as [(_ & _ & ->)|(_ & [(e & _ & ->)|(_ & ->)])]; cbn [fs cwd environ http printed set_fs] in *;
    repeat split; auto.
  intros q Hq. rewrite path_exists_insert. destruct (decide _); auto.
Qed.

Lemma parent_of_join2 (w : World) (a b : string) :
  rstrip_slash a = a -> a <> "" -> mem_char "/" b = false ->
  parent_of w (os_path_join2 a b) = a.
Proof.
  intros Ha Hne Hb. unfold parent_of. rewrite os_path_dirname_join2 by assumption.
  destruct a; [contradiction|reflexivity].
Qed.

Lemma fetch_into_cache_effects
    (requested sub name : string) (w w' : World) (r : result string) :
  cache_name sub -> cache_name name ->
  fetch_into_cache requested sub name w = (r, w') ->
  (requests_log w' = requests_log w /\ files_of (fs w') = files_of (fs w)) \/
  (path_exists (fs w) (os_path_join (cache_root w) [sub; name]) = false /\
   requests_log w' = requests_log w ++ [requested] /\
   (files_of (fs w') = files_of (fs w) \/
    exists body,
      r = Ok (os_path_join (cache_root w) [sub; name]) /\
      http w requested = Response 200 body /\
      files_of (fs w')
      = <[os_path_join (cache_root w) [sub; name] := body]> (files_of (fs w)))).
Proof.
  intros Hsub Hname H. unfold fetch_into_cache, bind, os_path_exists, ret in H.
  destruct (find_or_create_cache w) as [[root|e] w1] eqn:Hc.
  - pose proof (find_or_create_cache_root _ _ _ Hc) as ->.
    apply find_or_create_cache_frame in Hc as (_ & _ & Hh & Hl & Hf & Hm).
    destruct (path_exists (fs w1) (os_path_join (cache_root w) [sub; name])) eqn:Ep.
    + injection H as _ <-. left. auto.
    + cbn [negb] in H.
      assert (Ep0 : path_exists (fs w) (os_path_join (cache_root w) [sub; name]) = false).
      { destruct (path_exists (fs w) _) eqn:E; [|reflexivity].
        apply Hm in E. congruence. }
      destruct (download_file requested _ w1) as [[[]|e] w2] eqn:Hd.
      * injection H as <- <-. apply download_file_returns in Hd as (body & Hb & _ & Hf2 & Hl2).
        right. split; [exact Ep0|]. rewrite Hl2, Hl. split; [reflexivity|].
        right. exists body. rewrite Hf2, Hf, <- Hh. auto.
      * injection H as _ <-. apply download_file_fails in Hd as (Hf2 & [Hl2|Hl2]).
        -- left. split; congruence.
        -- right. split; [exact Ep0|]. rewrite Hl2, Hl. split; [reflexivity|].
           left. congruence.
  - injection H as _ <-.
    apply find_or_create_cache_frame in Hc as (_ & _ & _ & Hl & Hf & _). left. auto.
Qed.

Lemma fetch_into_cache_miss
    (requested sub name body : string) (w : World) :
  cache_name sub -> cache_name name ->
  path_isdir (fs w) (cache_root w) = true ->
  path_exists (fs w) (os_path_join (cache_root w) [sub; name]) = false ->
  fs w !! os_path_join2 (cache_root w) sub = None \/
  fs w !! os_path_join2 (cache_root w) sub = Some Dir ->
  http w requested = Response 200 body ->
  exists w',
    fetch_into_cache requested sub name w
    = (Ok (os_path_join (cache_root w) [sub; name]), w').
Proof.
  intros Hsub Hname Hroot Hp Hd Hresp.
  destruct (cache_root_tidy w) as [Ht Htne].
  destruct (cache_name_tidy (cache_root w) sub Hsub) as [Ht2 Htne2].
  pose proof Hsub as (Hs & Hsne & _). pose proof Hname as (Hn & Hnne & _).
  assert (Hex : path_exists (fs w) (cache_root w) = true).
  { unfold path_isdir in Hroot. unfold path_exists.
    destruct (fs w !! cache_root w); [reflexivity|discriminate]. }
  assert (Hrootdir : fs w !! cache_root w = Some Dir).
  { unfold path_isdir in Hroot. destruct (fs w !! cache_root w) as [[|]|]; done. }
  unfold fetch_into_cache, bind at 1.
  rewrite (find_or_create_cache_hit w Hex).
  unfold bind at 1, os_path_exists. rewrite Hp. cbn [negb].
  unfold os_path_join in *. cbn [fold_left] in *.
  set (d := os_path_join2 (cache_root w) sub) in *.
  set (p := os_path_join2 d name) in *.
  assert (Hpd : p <> d) by (apply os_path_join2_longer; auto using startswith_slash_mem).
  assert (Hpnone : fs w !! p = None).
  { unfold path_exists in Hp. destruct (fs w !! p); [discriminate|reflexivity]. }
  (* the provider directory is there after makedirs *)
  assert (Hmk : exists w1,
    os_makedirs d w = (Ok tt, w1) /\ fs w1 !! d = Some Dir /\ fs w1 !! p = None /\
    http w1 = http w).
  { unfold d. rewrite os_makedirs_in_existing by assumption. fold d.
    unfold os_mkdir. destruct Hd as [Hd|Hd]; rewrite Hd.
    - unfold d at 1. rewrite parent_of_join2 by assumption. rewrite Hrootdir.
      eexists. split; [reflexivity|]. cbn [fs set_fs http].
      rewrite lookup_insert_eq, lookup_insert_ne by congruence. auto.
    - unfold path_isdir. rewrite Hd. eexists. split; [reflexivity|]. auto. }
  destruct Hmk as (w1 & Hmk & Hd1 & Hp1 & Hh1).
  unfold bind, download_file, bind.
  unfold p at 1. rewrite os_path_dirname_join2 by assumption. fold p. rewrite Hmk.
  unfold requests_get. rewrite Hh1, Hresp. cbn [Z.eqb Pos.eqb].
  unfold write_file. cbn [fs]. rewrite Hp1.
  unfold p at 1. rewrite parent_of_join2 by assumption. rewrite Hd1.
  eexists. reflexivity.
Qed.

Section Effects.

Variable hf_hub_download : string -> option string -> string -> string -> py string.

Local Abbreviation get_lora := (get_lora_from_url hf_hub_download).

(** X6. Away from the named host a call sends at most one request, to the
    trimmed URL (generic host) or to the rewritten URL with the API key
    (marketplace), and only when the cache path did not exist; the only
    regular file it can write is that cache path, with the body of a 200
    answer.  An existing cache entry is never overwritten. *)
Theorem one_request_one_file (url : string) (w w' : World) (r : result string) :
  provider_of (strip url) <> NamedRepositoryHost ->
  get_lora url w = (r, w') ->
  (requests_log w' = requests_log w /\ files_of (fs w') = files_of (fs w)) \/
  (exists requested p,
     requested_url w url = Some requested /\
     computed_cache_path w url = Some p /\
     path_exists (fs w) p = false /\
     requests_log w' = requests_log w ++ [requested] /\
     (files_of (fs w') = files_of (fs w) \/
      exists body,
        r = Ok p /\ http w requested = Response 200 body /\
        files_of (fs w') = <[p := body]> (files_of (fs w)))).
Proof.
  intros Hprov H.
  destruct (get_lora_shape hf_hub_download url Hprov)
    as [(e & He)|(sub & name & Hs & Hn & Hshape)].
  - destruct (He w) as [He' _]. rewrite He' in H. injection H as _ <-. left. auto.
  - destruct (Hshape w) as (req & Hreq & Hpath & Hw). rewrite Hw in H.
    destruct (fetch_into_cache_effects _ _ _ _ _ _ Hs Hn H) as [H'|H'];
      [left; exact H'|].
    right. exists req, (os_path_join (cache_root w) [sub; name]). auto.
Qed.

(** X7. A cache miss with a server that answers 200: when the cache
    directory is there, the cache path is free and the provider directory
    is absent or a directory, the call returns the cache path, the body is
    stored there, no other regular file changes and one request is sent. *)
Theorem cache_miss_downloads (url p requested body : string) (w : World) :
  computed_cache_path w url = Some p ->
  requested_url w url = Some requested ->
  path_isdir (fs w) (cache_root w) = true ->
  path_exists (fs w) p = false ->
  fs w !! os_path_dirname p = None \/ fs w !! os_path_dirname p = Some Dir ->
  http w requested = Response 200 body ->
  exists w',
    get_lora url w = (Ok p, w') /\
    fs w' !! p = Some (File body) /\
    files_of (fs w') = <[p := body]> (files_of (fs w)) /\
    requests_log w' = requests_log w ++ [requested].
Proof.
  intros Hp Hreq Hroot Hmiss Hdir Hresp.
  assert (Hprov : provider_of (strip url) <> NamedRepositoryHost).
  { intros E. unfold requested_url in Hreq. rewrite E in Hreq. discriminate. }
  destruct (get_lora_shape hf_hub_download url Hprov)
    as [(e & He)|(sub & name & Hs & Hn & Hshape)].
  - destruct (He w) as [_ He']. congruence.
  - destruct (Hshape w) as (req & Hreq' & Hpath & Hw).
    assert (req = requested) as -> by congruence.
    assert (p = os_path_join (cache_root w) [sub; name]) as Hpe by congruence.
    destruct (cache_root_tidy w) as [Ht Htne].
    destruct (cache_name_tidy (cache_root w) sub Hs) as [Ht2 Htne2].
    assert (Hdn : os_path_dirname p = os_path_join2 (cache_root w) sub).
    { rewrite Hpe. unfold os_path_join. cbn [fold_left].
      apply os_path_dirname_join2; try assumption. apply Hn. }
    rewrite Hdn in Hdir. rewrite Hpe in Hmiss.
    destruct (fetch_into_cache_miss requested sub name body w Hs Hn Hroot Hmiss Hdir Hresp)
      as (w' & Hrun).
    exists w'. rewrite Hw, Hpe. split; [exact Hrun|].
    pose proof (fetch_into_cache_effects _ _ _ _ _ _ Hs Hn Hrun) as Heff.
    unfold fetch_into_cache, bind at 1 in Hrun.
    assert (Hex : path_exists (fs w) (cache_root w) = true).
    { unfold path_isdir in Hroot. unfold path_exists.
      destruct (fs w !! cache_root w); [reflexivity|discriminate]. }
    rewrite (find_or_create_cache_hit w Hex) in Hrun.
    unfold bind at 1, os_path_exists in Hrun. rewrite Hmiss in Hrun. cbn [negb] in Hrun.
    unfold bind, ret in Hrun.
    destruct (download_file requested _ w) as [[[]|e] w2] eqn:Hd; [|discriminate Hrun].
    injection Hrun as <-.
    apply download_file_returns in Hd as (body' & Hb & Hfile & Hfiles & Hlog).
    assert (body' = body) as -> by congruence. auto.
Qed.

End Effects.

(** ** More on strings *)

Lemma contains_cons_false (sub : string) (c : ascii) (s : string) :
  contains sub (String c s) = false ->
  startswith (String c s) sub = false /\ contains sub s = false.
Proof. cbn [contains]. apply orb_false_elim. Qed.

Lemma split_absent (sep s : string) :
  contains sep s = false -> split_from sep s 0 = [s].
Proof.
  induction s as [|c s IH]; [reflexivity|]. intros H.
  apply contains_cons_false in H as [Hh Ht].
  rewrite split_from_cons_miss by exact Hh. rewrite (IH Ht). reflexivity.
Qed.

Lemma replace_absent (old new s : string) :
  contains old s = false -> replace s old new = s.
Proof.
  unfold replace. induction s as [|c s IH]; [reflexivity|]. intros H.
  apply contains_cons_false in H as [Hh Ht].
  cbn [replace_from]. rewrite Hh, (IH Ht). reflexivity.
Qed.

Lemma replace_from_skip (old new a r : string) :
  replace_from old new (a +:+ r) (String.length a) = replace_from old new r 0.
Proof.
  induction a as [|c a IH]; [reflexivity|]. rewrite app_cons. exact IH.
Qed.

Lemma replace_hit (old new r : string) :
  old <> "" -> replace (old +:+ r) old new = new +:+ replace r old new.
Proof.
  intros Hold. unfold replace. destruct old as [|c old]; [contradiction|].
  pose proof (startswith_app (String c old) r) as Hs.
  rewrite app_cons in *. cbn [replace_from]. rewrite Hs.
  replace (String.length (String c old) - 1)%nat with (String.length old)
    by (simpl; lia).
  rewrite replace_from_skip. reflexivity.
Qed.

Lemma replace_first_occurrence (old new pre rest : string) :
  old <> "" ->
  contains old (pre +:+ but_last old) = false ->
  replace (pre +:+ old +:+ rest) old new = pre +:+ new +:+ replace rest old new.
Proof.
  intros Hold. induction pre as [|c pre IH]; intros Hno.
  - rewrite !app_nil_l. apply replace_hit, Hold.
  - rewrite app_cons in Hno. apply contains_cons_false in Hno as [Hhead Htail].
    rewrite !(app_cons c pre). unfold replace in *. cbn [replace_from].
    assert (Hmiss : startswith (String c (pre +:+ old +:+ rest)) old = false).
    { destruct (substring_0_prefix (String.length old - 1) old) as [t Ht].
      fold (drop_last 1 old) in Ht. fold (but_last old) in Ht.
      rewrite <- Hhead, <- !app_cons.
      rewrite Ht at 1. rewrite app_assoc, <- (app_assoc _ (but_last old)).
      apply startswith_app_long.
      rewrite length_app, length_but_last. simpl. lia. }
    rewrite Hmiss, (IH Htail). reflexivity.
Qed.

Lemma startswith_true_split (s p : string) :
  startswith s p = true -> exists y, s = p +:+ y.
Proof.
  revert s. induction p as [|c p IH]; intros s H.
  - exists s. reflexivity.
  - destruct s as [|d s]; [discriminate H|]. cbn [startswith] in H.
    apply andb_true_iff in H as [Hc Hs]. apply Ascii.eqb_eq in Hc as ->.
    destruct (IH s Hs) as [y ->]. exists y. reflexivity.
Qed.

Lemma contains_true_split (p s : string) :
  contains p s = true -> exists x y, s = x +:+ p +:+ y.
Proof.
  induction s as [|c s IH]; cbn [contains]; intros H.
  - rewrite orb_false_r in H. apply startswith_true_split in H as [y ->].
    exists "", y. reflexivity.
  - apply orb_true_iff in H as [H|H].
    + apply startswith_true_split in H as [y ->]. exists "", y. reflexivity.
    + destruct (IH H) as (x & y & ->). exists (String c x), y. reflexivity.
Qed.

(** A text that does not hold a part of [p] does not hold [p]. *)
Lemma contains_longer (a q b s : string) :
  contains q s = false -> contains (a +:+ q +:+ b) s = false.
Proof.
  intros H. destruct (contains (a +:+ q +:+ b) s) eqn:E; [|reflexivity].
  apply contains_true_split in E as (x & y & ->).
  rewrite <- H. symmetry.
  rewrite !app_assoc, <- (app_assoc x a). apply contains_app.
Qed.

Lemma contains_false_suffix (p a s : string) :
  contains p (a +:+ s) = false -> contains p s = false.
Proof.
  induction a as [|c a IH]; [auto|]. rewrite app_cons. intros H.
  apply contains_cons_false in H as [_ H]. auto.
Qed.

Lemma endswith_true_split (s suf : string) :
  endswith s suf = true -> exists x, s = x +:+ suf.
Proof.
  induction s as [|c s IH]; cbn [endswith]; intros H.
  - rewrite orb_false_r in H. apply String.eqb_eq in H as <-. exists "". reflexivity.
  - apply orb_true_iff in H as [H|H].
    + apply String.eqb_eq in H as <-. exists "". reflexivity.
    + destruct (IH H) as [x ->]. exists (String c x). reflexivity.
Qed.

Lemma endswith_app (x suf : string) : endswith (x +:+ suf) suf = true.
Proof.
  induction x as [|c x IH].
  - rewrite app_nil_l. destruct suf; cbn [endswith]; rewrite String.eqb_refl; reflexivity.
  - rewrite app_cons. cbn [endswith]. rewrite IH. apply orb_true_r.
Qed.

Lemma endswith_app_r (x s suf : string) :
  endswith s suf = true -> endswith (x +:+ s) suf = true.
Proof.
  intros H. apply endswith_true_split in H as [y ->].
  rewrite <- app_assoc. apply endswith_app.
Qed.

Lemma lower_app (s t : string) : lower (s +:+ t) = lower s +:+ lower t.
Proof.
  induction s as [|c s IH]; [reflexivity|].
  rewrite app_cons. cbn [lower]. rewrite IH. reflexivity.
Qed.

Lemma app_last_inj (x y : string) (a b : ascii) :
  x +:+ String a "" = y +:+ String b "" -> a = b.
Proof.
  revert y. induction x as [|c x IH]; intros [|d y] H.
  - injection H as ->. reflexivity.
  - rewrite app_nil_l, app_cons in H. injection H as _ H.
    destruct y; discriminate H.
  - rewrite app_nil_l, app_cons in H. injection H as _ H.
    destruct x; discriminate H.
  - rewrite !app_cons in H. injection H as _ H. eauto.
Qed.

(** A text cannot end in two words with different last letters. *)
Lemma endswith_exclusive (s u v : string) (a b : ascii) :
  a <> b ->
  endswith s (u +:+ String a "") = true ->
  endswith s (v +:+ String b "") = false.
Proof.
  intros Hab H1. destruct (endswith s (v +:+ String b "")) eqn:H2; [|reflexivity].
  apply endswith_true_split in H1 as [x ->], H2 as [y Hy].
  rewrite <- !app_assoc in Hy. apply app_last_inj in Hy. contradiction.
Qed.

Lemma substring_0_app (a b : string) :
  String.substring 0 (String.length a) (a +:+ b) = a.
Proof.
  induction a as [|c a IH].
  - rewrite app_nil_l. destruct b; reflexivity.
  - rewrite app_cons. simpl. rewrite IH. reflexivity.
Qed.

Lemma drop_last_app (a b : string) : drop_last (String.length b) (a +:+ b) = a.
Proof.
  unfold drop_last. rewrite length_app.
  replace (String.length a + String.length b - String.length b)%nat
    with (String.length a) by lia.
  apply substring_0_app.
Qed.

(** ** Joining and splitting segments *)

Lemma no_slash_contains (x : string) :
  mem_char "/" x = false -> contains "//" x = false.
Proof.
  intros H. change "//" with ("" +:+ "/" +:+ "/"). apply contains_longer.
  rewrite mem_char_contains. exact H.
Qed.

Lemma no_double_slash_app (x r : string) :
  mem_char "/" x = false -> startswith r "/" = false -> contains "//" r = false ->
  contains "//" (x +:+ "/" +:+ r) = false.
Proof.
  intros Hx Hr Hc. induction x as [|c x IH].
  - rewrite app_nil_l. change ("/" +:+ r) with (String "/" r).
    cbn [contains startswith]. rewrite Hc.
    destruct r as [|d r]; [reflexivity|]. cbn [startswith] in Hr |- *.
    rewrite startswith_nil in *. rewrite Hr. reflexivity.
  - cbn [mem_char] in Hx. apply orb_false_elim in Hx as [Hc0 Hx].
    rewrite app_cons. cbn [contains startswith]. rewrite Hc0, (IH Hx). reflexivity.
Qed.

Lemma join_segments (l : list string) :
  Forall segment l ->
  contains "//" (join "/" l) = false /\ startswith (join "/" l) "/" = false.
Proof.
  induction 1 as [|x l [Hx Hne] Hl [IH1 IH2]]; [split; reflexivity|].
  destruct l as [|y l].
  - cbn [join]. split; [apply no_slash_contains, Hx|apply startswith_slash_mem, Hx].
  - change (join "/" (x :: y :: l)) with (x +:+ "/" +:+ join "/" (y :: l)).
    split; [apply no_double_slash_app; assumption|].
    destruct x as [|c x]; [contradiction|]. rewrite app_cons.
    cbn [mem_char] in Hx. apply orb_false_elim in Hx as [Hc _].
    cbn [startswith]. rewrite Hc. reflexivity.
Qed.

(** Splitting undoes joining when no segment holds the separator. *)
Lemma split_join (l : list string) :
  l <> [] -> Forall (fun s => mem_char "/" s = false) l ->
  split (join "/" l) "/" = l.
Proof.
  intros Hne H. unfold split. induction H as [|x l Hx Hl IH]; [contradiction|].
  destruct l as [|y l].
  - cbn [join]. apply split_absent. rewrite mem_char_contains. exact Hx.
  - change (join "/" (x :: y :: l)) with (x +:+ "/" +:+ join "/" (y :: l)).
    rewrite split_first_occurrence; [|done|].
    + rewrite IH by done. reflexivity.
    + change (but_last "/") with "". rewrite app_nil_r, mem_char_contains. exact Hx.
Qed.

Lemma join_last (sep : string) (l : list string) (f : string) :
  exists x, join sep (l ++ [f]) = x +:+ f.
Proof.
  induction l as [|a l [x IH]]; [exists ""; reflexivity|].
  destruct l as [|b l].
  - exists (a +:+ sep). cbn. apply eq_sym, app_assoc.
  - change (join sep ((a :: b :: l) ++ [f]))
      with (a +:+ sep +:+ join sep ((b :: l) ++ [f])).
    rewrite IH. exists (a +:+ sep +:+ x). rewrite !app_assoc. reflexivity.
Qed.

Lemma segments_no_slash (l : list string) :
  Forall segment l -> Forall (fun s => mem_char "/" s = false) l.
Proof. induction 1 as [|s l [Hs _] _ IH]; constructor; assumption. Qed.

(** ** The named host *)

(** Without its scheme a URL of segments is the segments joined. *)
Lemma parser_string_of_segments (scheme : string) (l : list string) :
  scheme = "http://" \/ scheme = "https://" ->
  Forall segment l ->
  replace (replace (scheme +:+ join "/" l) "http://" "") "https://" "" = join "/" l.
Proof.
  intros Hscheme Hl. destruct (join_segments l Hl) as [Hdd _].
  assert (H1 : contains "http://" (join "/" l) = false).
  { change "http://" with ("http:" +:+ "//" +:+ ""). apply contains_longer, Hdd. }
  assert (H2 : contains "https://" (join "/" l) = false).
  { change "https://" with ("https:" +:+ "//" +:+ ""). apply contains_longer, Hdd. }
  destruct Hscheme as [->| ->].
  - rewrite replace_hit by done. rewrite app_nil_l.
    rewrite (replace_absent _ _ _ H1). apply replace_absent, H2.
  - rewrite (replace_absent "http://").
    + rewrite replace_hit by done. rewrite app_nil_l. apply replace_absent, H2.
    + change ("https://" +:+ join "/" l)
        with (String "h" (String "t" (String "t" (String "p" (String "s"
               (String ":" (String "/" (String "/" (join "/" l))))))))).
      cbn [contains startswith Ascii.eqb Bool.eqb andb orb]. exact H1.
Qed.

Lemma hf_parse_of_segments
    (scheme host owner repo kind rev file : string) (subs : list string) :
  scheme = "http://" \/ scheme = "https://" ->
  Forall segment (hf_segments host owner repo kind rev subs file) ->
  endswith (lower file) "safetensors" = true ->
  hf_parse (scheme +:+ join "/" (hf_segments host owner repo kind rev subs file))
  = Ok (mkTarget (owner +:+ "/" +:+ repo) (subfolder_of subs) file).
Proof.
  intros Hscheme Hseg Hext. unfold hf_parse.
  assert (Hend : endswith
    (lower (scheme +:+ join "/" (hf_segments host owner repo kind rev subs file)))
    "safetensors" = true).
  { unfold hf_segments.
    destruct (join_last "/" (host :: owner :: repo :: kind :: rev :: subs) file)
      as [x Hx].
    change (join "/" (host :: owner :: repo :: kind :: rev :: subs ++ [file]))
      with (join "/" ((host :: owner :: repo :: kind :: rev :: subs) ++ [file])).
    rewrite Hx, <- app_assoc, lower_app. apply endswith_app_r, Hext. }
  rewrite Hend. cbn [negb].
  rewrite parser_string_of_segments by assumption.
  rewrite split_join; [|done|apply segments_no_slash, Hseg].
  unfold hf_segments. cbn [lookup list_lookup].
  f_equal. f_equal.
  - cbn [length]. rewrite List.length_app. cbn [length].
    unfold subfolder_parts. cbn [length skipn]. rewrite List.length_app. cbn [length].
    replace (S (S (S (S (S (length subs + 1))))) - 1 - 5)%nat with (length subs) by lia.
    rewrite drop_0, take_app_length.
    destruct subs as [|s subs]; [reflexivity|].
    cbn [length subfolder_of].
    destruct (Z.ltb_spec 0 (Z.of_nat (S (S (S (S (S (S (length subs) + 1)))))) - 6));
      [reflexivity|lia].
  - change (host :: owner :: repo :: kind :: rev :: subs ++ [file])
      with ((host :: owner :: repo :: kind :: rev :: subs) ++ [file]).
    apply last_last.
Qed.

(** The download flag at the end of a URL is cut off. *)
Lemma hf_normalize_flag (url : string) :
  endswith url "?download=true" = false ->
  hf_normalize (url +:+ "?download=true") = hf_normalize url.
Proof.
  intros H. unfold hf_normalize. rewrite endswith_app, drop_last_app, H. reflexivity.
Qed.

Lemma safetensors_is_not_flag (s : string) :
  endswith (lower s) "safetensors" = true -> endswith s "?download=true" = false.
Proof.
  intros H. destruct (endswith s "?download=true") eqn:E; [|reflexivity].
  apply endswith_true_split in E as [x ->]. rewrite lower_app in H.
  change (lower "?download=true") with ("?download=tru" +:+ String "e" "") in H.
  change "safetensors" with ("safetensor" +:+ String "s" "") in H.
  pose proof (endswith_app (lower x) ("?download=tru" +:+ String "e" "")) as H'.
  rewrite (endswith_exclusive _ "safetensor" "?download=tru" "s" "e") in H'; done.
Qed.

Lemma segments_end_in_safetensors
    (scheme host owner repo kind rev file : string) (subs : list string) :
  endswith (lower file) "safetensors" = true ->
  endswith
    (lower (scheme +:+ join "/" (hf_segments host owner repo kind rev subs file)))
    "safetensors" = true.
Proof.
  intros Hext. unfold hf_segments.
  destruct (join_last "/" (host :: owner :: repo :: kind :: rev :: subs) file)
    as [x Hx].
  change (join "/" (host :: owner :: repo :: kind :: rev :: subs ++ [file]))
    with (join "/" ((host :: owner :: repo :: kind :: rev :: subs) ++ [file])).
  rewrite Hx, <- app_assoc, lower_app. apply endswith_app_r, Hext.
Qed.

Section Named.

Variable hf_hub_download : string -> option string -> string -> string -> py string.

(** X11. A URL of the named host made of a scheme and segments, with no
    [/blob/] in it and a file ending in safetensors: the hub is asked for
    the repository [owner/repo], the file, and as subfolder all the
    directories between the fifth segment and the file, however many; the
    fourth and fifth segments are not passed on. *)
Theorem named_host_target
    (scheme host owner repo kind rev file : string) (subs : list string) (w : World) :
  scheme = "http://" \/ scheme = "https://" ->
  Forall segment (hf_segments host owner repo kind rev subs file) ->
  endswith (lower file) "safetensors" = true ->
  contains "/blob/"
    (scheme +:+ join "/" (hf_segments host owner repo kind rev subs file)) = false ->
  huggingface_branch hf_hub_download
    (scheme +:+ join "/" (hf_segments host owner repo kind rev subs file)) w
  = (let! cache_dir := find_or_create_cache in
     hf_hub_download (strip (owner +:+ "/" +:+ repo)) (subfolder_of subs)
       (strip file) cache_dir) w.
Proof.
  intros Hscheme Hseg Hext Hblob. unfold huggingface_branch.
  assert (Hn : hf_normalize
    (scheme +:+ join "/" (hf_segments host owner repo kind rev subs file))
    = scheme +:+ join "/" (hf_segments host owner repo kind rev subs file)).
  { unfold hf_normalize.
    rewrite safetensors_is_not_flag
      by (apply segments_end_in_safetensors, Hext).
    rewrite Hblob. reflexivity. }
  rewrite Hn, (hf_parse_of_segments _ _ _ _ _ _ _ _ Hscheme Hseg Hext).
  reflexivity.
Qed.

(** X13. The download flag at the end of a URL of the named host does not
    change what the branch does. *)
Theorem download_flag_is_cut (url : string) (w : World) :
  endswith url "?download=true" = false ->
  huggingface_branch hf_hub_download (url +:+ "?download=true") w
  = huggingface_branch hf_hub_download url w.
Proof.
  intros H. unfold huggingface_branch. rewrite (hf_normalize_flag url H). reflexivity.
Qed.

End Named.

(** X12. The fourth and fifth segments of a URL of the named host (the
    word [resolve] and the revision) do not reach the parsed target: two
    URLs that differ there only are parsed alike. *)
Theorem revision_is_ignored
    (scheme host owner repo kind rev kind' rev' file : string) (subs : list string) :
  scheme = "http://" \/ scheme = "https://" ->
  Forall segment (hf_segments host owner repo kind rev subs file) ->
  segment kind' -> segment rev' ->
  endswith (lower file) "safetensors" = true ->
  hf_parse (scheme +:+ join "/" (hf_segments host owner repo kind' rev' subs file))
  = hf_parse (scheme +:+ join "/" (hf_segments host owner repo kind rev subs file)).
Proof.
  intros Hscheme Hseg Hk Hr Hext.
  rewrite !hf_parse_of_segments; try assumption; [reflexivity|].
  unfold hf_segments in *. rewrite !Forall_cons in Hseg |- *. tauto.
Qed.

(** X14. A blob URL is normalized to its resolve form, which is left as
    it is, when [/blob/] occurs nowhere else: not before, and not in the
    resolve form (as it does for a folder named [blob]). *)
Theorem blob_form_agrees (pre post : string) :
  contains "/blob/" (pre +:+ "/blob") = false ->
  contains "/blob/" (pre +:+ "/resolve/" +:+ post) = false ->
  endswith (lower post) "safetensors" = true ->
  hf_normalize (pre +:+ "/blob/" +:+ post) = pre +:+ "/resolve/" +:+ post /\
  hf_normalize (pre +:+ "/resolve/" +:+ post) = pre +:+ "/resolve/" +:+ post.
Proof.
  intros Hfirst Hres Hext.
  assert (Hpost : contains "/blob/" post = false).
  { rewrite <- app_assoc in Hres. apply contains_false_suffix in Hres. exact Hres. }
  assert (Hflag : forall x, endswith (x +:+ post) "?download=true" = false).
  { intros x. apply safetensors_is_not_flag. rewrite lower_app.
    apply endswith_app_r, Hext. }
  unfold hf_normalize. split.
  - rewrite <- (app_assoc pre), Hflag, (app_assoc pre).
    rewrite contains_app.
    rewrite replace_first_occurrence; [|done|exact Hfirst].
    rewrite (replace_absent _ _ _ Hpost). reflexivity.
  - rewrite <- (app_assoc pre), Hflag, (app_assoc pre), Hres. reflexivity.
Qed.

(** ** The digest, again *)

Lemma digest_length (msg : list Z) : length (MD5.digest msg) = 16%nat.
Proof.
  unfold MD5.digest.
  destruct (fold_left MD5.process_block _ MD5.init) as [[[A B] C] D]. reflexivity.
Qed.

Lemma hex_length (l : list Z) : String.length (MD5.hex l) = (2 * length l)%nat.
Proof. induction l as [|b l IH]; [reflexivity|]. cbn [MD5.hex length String.length]. lia. Qed.

Lemma hex_digit_is_hex (n : Z) : mem_char (MD5.hex_digit n) "0123456789abcdef" = true.
Proof.
  unfold MD5.hex_digit. generalize (Z.to_nat n). intros i.
  do 17 (destruct i as [|i]; [reflexivity|]). destruct i; reflexivity.
Qed.

Lemma hex_is_hex (l : list Z) (c : ascii) :
  mem_char c (MD5.hex l) = true -> mem_char c "0123456789abcdef" = true.
Proof.
  induction l as [|b l IH]; [discriminate|]. cbn [MD5.hex mem_char].
  intros H. apply orb_true_iff in H as [H|H];
    [apply Ascii.eqb_eq in H as ->; apply hex_digit_is_hex|].
  apply orb_true_iff in H as [H|H];
    [apply Ascii.eqb_eq in H as ->; apply hex_digit_is_hex|auto].
Qed.

(** X9. A cache file name is thirty-two hexadecimal digits in lower case,
    a dot and the extension. *)
Theorem get_filename_from_url_shape (url extension : string) :
  exists stem,
    get_filename_from_url url extension = stem +:+ "." +:+ extension /\
    String.length stem = 32%nat /\
    forall c, mem_char c stem = true -> mem_char c "0123456789abcdef" = true.
Proof.
  exists (MD5.hexdigest url). split; [reflexivity|]. unfold MD5.hexdigest.
  split; [rewrite hex_length, digest_length; reflexivity|apply hex_is_hex].
Qed.

(** ** First use of the cache *)




Section Placement.

Variable hf_hub_download : string -> option string -> string -> string -> py string.

Local Abbreviation get_lora := (get_lora_from_url hf_hub_download).

(** X10. A marketplace URL that holds the text [modelVersionId] and
    nowhere [modelVersionId=] raises [IndexError], with no effect. *)
Theorem version_id_without_value (url : string) (w : World) :
  strip url <> "" ->
  startswith (strip url) "http" = true ->
  provider_of (strip url) = MarketplaceHost ->
  contains "modelVersionId" (strip url) = true ->
  contains "modelVersionId=" (strip url) = false ->
  get_lora url w = (Raise IndexError, w).
Proof.
  intros Hne Hhttp Hprov Hname Hvalue. unfold get_lora_from_url.
  destruct (String.eqb (strip url) "") eqn:E;
    [apply String.eqb_eq in E; contradiction|].
  rewrite Hhttp, Hprov. cbn [negb].
  unfold civitai_branch, bind, lift, civitai_fix_url, split.
  rewrite Hname, (split_absent _ _ Hvalue). reflexivity.
Qed.

Lemma fetch_into_cache_ok_exists
    (requested sub name p : string) (w w' : World) :
  fetch_into_cache requested sub name w = (Ok p, w') ->
  path_exists (fs w') p = true.
Proof.
  unfold fetch_into_cache, bind, os_path_exists, ret. intros H.
  destruct (find_or_create_cache w) as [[root|e] w1]; [|discriminate H].
  destruct (path_exists (fs w1) (os_path_join root [sub; name])) eqn:Ep.
  - injection H as <- <-. exact Ep.
  - cbn [negb] in H.
    destruct (download_file requested _ w1) as [[[]|e] w2] eqn:Hd; [|discriminate H].
    injection H as <- <-. apply download_file_returns in Hd as (body & _ & Hp & _).
    unfold path_exists, os_path_join in *. cbn [fold_left] in *.
    rewrite Hp. reflexivity.
Qed.

(** X8. Away from the named host, a path that is returned exists when the
    call returns, and lies directly in the directory of its provider:
    [civitai] or [general] under the cache directory. *)
Theorem returned_path_lies_in_cache (url p : string) (w w' : World) :
  provider_of (strip url) <> NamedRepositoryHost ->
  get_lora url w = (Ok p, w') ->
  path_exists (fs w') p = true /\
  (provider_of (strip url) = MarketplaceHost /\
   os_path_dirname p = os_path_join (cache_root w) ["civitai"] \/
   provider_of (strip url) = GenericHost /\
   os_path_dirname p = os_path_join (cache_root w) ["general"]).
Proof.
  intros Hprov H. split.
  - destruct (get_lora_shape hf_hub_download url Hprov)
      as [(e & He)|(sub & name & Hs & Hn & Hshape)].
    + destruct (He w) as [He' _]. congruence.
    + destruct (Hshape w) as (req & _ & _ & Hw). rewrite Hw in H.
      eapply fetch_into_cache_ok_exists, H.
  - apply returned_path_is_computed in H; [|exact Hprov].
    unfold computed_cache_path in H.
    destruct (String.eqb (strip url) "" || negb (startswith (strip url) "http"));
      [discriminate H|].
    destruct (cache_root_tidy w) as [Ht Hne].
    destruct (provider_of (strip url)); [contradiction| |].
    + destruct (civitai_fix_url (strip url)) as [u|e]; [|discriminate H].
      destruct (contains "SafeTensor" u); [|discriminate H].
      injection H as <-. left. split; [reflexivity|].
      unfold os_path_join. cbn [fold_left].
      apply os_path_dirname_join2;
        [apply cache_name_tidy, cache_name_civitai
        |apply cache_name_tidy, cache_name_civitai
        |apply get_filename_from_url_no_slash].
    + destruct (endswith _ "safetensors"); [|discriminate H].
      injection H as <-. right. split; [reflexivity|].
      unfold os_path_join. cbn [fold_left].
      apply os_path_dirname_join2;
        [apply cache_name_tidy, cache_name_general
        |apply cache_name_tidy, cache_name_general
        |apply get_filename_from_url_no_slash].
Qed.

End Placement.

Section Node.

Variable hf_hub_download : string -> option string -> string -> string -> py string.
Context {MODEL LORA : Type}.
Variable load_torch_file : string -> py LORA.
Variable load_lora_for_models : MODEL -> LORA -> PrimFloat.float -> py MODEL.

Local Abbreviation get_lora := (get_lora_from_url hf_hub_download).
Local Abbreviation load :=
  (load_lora_model_only_from_url hf_hub_download load_torch_file load_lora_for_models).

Lemma path_is_true (o : option string) (p : string) :
  path_is o p = true -> o = Some p.
Proof.
  destruct o as [q|]; [|discriminate]. cbn [path_is]. intros H.
  apply String.eqb_eq in H as ->. reflexivity.
Qed.

(** X15. Every call keeps the node consistent: it holds weights and their
    path, or neither. *)
Theorem slot_stays_consistent
    (self self' : @LoadLoraModelOnlyWithUrl LORA) (model : MODEL) (url : string)
    (strength_model : PrimFloat.float) (w w' : World) (r : result MODEL) :
  slot_consistent self ->
  load self model url strength_model w = (r, self', w') ->
  slot_consistent self'.
Proof.
  intros Hc H. unfold load_lora_model_only_from_url in H.
  destruct (PrimFloat.eqb strength_model PrimFloat.zero);
    [injection H as _ <- _; exact Hc|].
  destruct (get_lora url w) as [[p|e] w1]; [|injection H as _ <- _; exact Hc].
  assert (Hfresh : slot_consistent (@mkNode LORA None None)).
  { unfold slot_consistent. cbn. split; intros [? [=]]. }
  assert (Hfull : forall l : LORA, slot_consistent (@mkNode LORA (Some l) (Some p))).
  { intros l. unfold slot_consistent. cbn. split; eauto. }
  destruct (loaded_lora self) as [l|] eqn:El.
  - destruct (path_is (loaded_lora_path self) p).
    + destruct (load_lora_for_models model l strength_model w1) as [[m|e] w2];
        injection H as _ <- _; exact Hc.
    + destruct (load_torch_file p w1) as [[l'|e] w2].
      * destruct (load_lora_for_models model l' strength_model w2) as [[m|e] w3];
          injection H as _ <- _; apply Hfull.
      * injection H as _ <- _. exact Hfresh.
  - destruct (load_torch_file p w1) as [[l'|e] w2].
    + destruct (load_lora_for_models model l' strength_model w2) as [[m|e] w3];
        injection H as _ <- _; apply Hfull.
    + injection H as _ <- _. exact Hc.
Qed.

Lemma load_with_cached_weights
    (self : @LoadLoraModelOnlyWithUrl LORA) (model : MODEL) (url p : string)
    (l : LORA) (strength_model : PrimFloat.float) (w w1 : World) :
  PrimFloat.eqb strength_model PrimFloat.zero = false ->
  loaded_lora self = Some l ->
  loaded_lora_path self = Some p ->
  get_lora url w = (Ok p, w1) ->
  load self model url strength_model w =
  match load_lora_for_models model l strength_model w1 with
  | (Ok model_lora, w') => (Ok model_lora, self, w')
  | (Raise e, w') => (Raise e, self, w')
  end.
Proof.
  intros Hs Hl Hp Hg. unfold load_lora_model_only_from_url.
  rewrite Hs, Hg, Hl, Hp. cbn [path_is]. rewrite String.eqb_refl. reflexivity.
Qed.

(** X17. After a call with a strength other than zero that returned a
    model, the node holds the path that was resolved and the weights the
    model was patched with. *)
Theorem slot_names_resolved_path
    (self self' : @LoadLoraModelOnlyWithUrl LORA) (model model_lora : MODEL)
    (url : string) (strength_model : PrimFloat.float) (w w' : World) :
  PrimFloat.eqb strength_model PrimFloat.zero = false ->
  load self model url strength_model w = (Ok model_lora, self', w') ->
  exists p l w1 w2,
    get_lora url w = (Ok p, w1) /\
    loaded_lora self' = Some l /\
    loaded_lora_path self' = Some p /\
    load_lora_for_models model l strength_model w2 = (Ok model_lora, w').
Proof.
  intros Hs H. unfold load_lora_model_only_from_url in H. rewrite Hs in H.
  destruct (get_lora url w) as [[p|e] w1]; [|discriminate H].
  exists p.
  destruct (loaded_lora self) as [l|] eqn:El.
  - destruct (path_is (loaded_lora_path self) p) eqn:Ep.
    + apply path_is_true in Ep.
      destruct (load_lora_for_models model l strength_model w1) as [[m|e] w2] eqn:Em;
        [|discriminate H].
      injection H as <- <- <-. exists l, w1, w1. auto.
    + destruct (load_torch_file p w1) as [[l'|e] w2]; [|discriminate H].
      destruct (load_lora_for_models model l' strength_model w2) as [[m|e] w3] eqn:Em;
        [|discriminate H].
      injection H as <- <- <-. exists l', w1, w2. auto.
  - destruct (load_torch_file p w1) as [[l'|e] w2]; [|discriminate H].
    destruct (load_lora_for_models model l' strength_model w2) as [[m|e] w3] eqn:Em;
      [|discriminate H].
    injection H as <- <- <-. exists l', w1, w2. auto.
Qed.

(** X18. When the resolved path differs from the path the node holds, the
    weights held are dropped before the file is read: if reading fails, the
    node is left empty. *)
Theorem failed_reload_empties_slot
    (self : @LoadLoraModelOnlyWithUrl LORA) (model : MODEL) (url p : string)
    (l : LORA) (e : exn) (strength_model : PrimFloat.float) (w w1 w2 : World) :
  PrimFloat.eqb strength_model PrimFloat.zero = false ->
  loaded_lora self = Some l ->
  loaded_lora_path self <> Some p ->
  get_lora url w = (Ok p, w1) ->
  load_torch_file p w1 = (Raise e, w2) ->
  load self model url strength_model w = (Raise e, mkNode None None, w2).
Proof.
  intros Hs Hl Hp Hg Hf. unfold load_lora_model_only_from_url.
  rewrite Hs, Hg, Hl.
  destruct (path_is (loaded_lora_path self) p) eqn:Ep;
    [apply path_is_true in Ep; contradiction|].
  rewrite Hf. reflexivity.
Qed.

End Node.

(** ** Downloads, the cache directory and the node, for their users *)

(** X1. When [download_file] returns, the server answered 200 to the one
    request that was sent, the destination holds the body it sent, and no
    other regular file has changed. *)
Theorem download_file_ok (url filename : string) (w w' : World) :
  download_file url filename w = (Ok tt, w') ->
  exists body,
    http w url = Response 200 body /\
    fs w' !! filename = Some (File body) /\
    files_of (fs w') = <[filename := body]> (files_of (fs w)) /\
    requests_log w' = requests_log w ++ [url].
Proof. apply download_file_returns. Qed.

(** X2. However [download_file] fails (directories, connection, status,
    writing), the regular files are what they were and at most one request
    was sent. *)
Theorem download_file_raise (url filename : string) (w w' : World) (e : exn) :
  download_file url filename w = (Raise e, w') ->
  files_of (fs w') = files_of (fs w) /\
  (requests_log w' = requests_log w \/ requests_log w' = requests_log w ++ [url]).
Proof. apply download_file_fails. Qed.

(** X3. When [find_or_create_cache] returns a directory, the directory
    exists, nothing else was added to the file system, and a second call
    returns the same directory and changes nothing. *)
Theorem find_or_create_cache_settles (w w' : World) (root : string) :
  find_or_create_cache w = (Ok root, w') ->
  path_exists (fs w') root = true /\
  (fs w' = fs w \/ fs w' = <[root := Dir]> (fs w)) /\
  find_or_create_cache w' = (Ok root, w').
Proof. apply find_or_create_cache_again. Qed.

(** X16. A node that holds the weights of the path that is resolved does
    not call [load_torch_file]: whatever the loader, the call gives the
    same result, and the node is left as it is. *)
Theorem cached_weights_are_reused
    {MODEL LORA : Type}
    (hf_hub_download : string -> option string -> string -> string -> py string)
    (loader loader' : string -> py LORA)
    (load_lora_for_models : MODEL -> LORA -> PrimFloat.float -> py MODEL)
    (self : @LoadLoraModelOnlyWithUrl LORA) (model : MODEL) (url p : string)
    (l : LORA) (strength_model : PrimFloat.float) (w w1 : World) :
  PrimFloat.eqb strength_model PrimFloat.zero = false ->
  loaded_lora self = Some l ->
  loaded_lora_path self = Some p ->
  get_lora_from_url hf_hub_download url w = (Ok p, w1) ->
  load_lora_model_only_from_url hf_hub_download loader load_lora_for_models
    self model url strength_model w
  = load_lora_model_only_from_url hf_hub_download loader' load_lora_for_models
      self model url strength_model w
  /\ snd (fst (load_lora_model_only_from_url hf_hub_download loader
                 load_lora_for_models self model url strength_model w)) = self.
Proof.
  intros Hs Hl Hp Hg.
  rewrite !(load_with_cached_weights _ _ _ _ _ _ _ _ _ _ _ Hs Hl Hp Hg).
  split; [reflexivity|].
  destruct (load_lora_for_models model l strength_model w1) as [[m|e] w']; reflexivity.
Qed.

(** ** The further properties at work *)

Lemma download_returns_example :
  exists body,
    http Sample.fresh "https://example.com/weights.safetensors?v=2"
      = Response 200 body /\
    fs (snd (download_file "https://example.com/weights.safetensors?v=2"
               "/srv/cache/weights.safetensors" Sample.fresh))
      !! "/srv/cache/weights.safetensors" = Some (File body) /\
    files_of (fs (snd (download_file "https://example.com/weights.safetensors?v=2"
                         "/srv/cache/weights.safetensors" Sample.fresh)))
      = <["/srv/cache/weights.safetensors" := body]> (files_of (fs Sample.fresh)) /\
    requests_log (snd (download_file "https://example.com/weights.safetensors?v=2"
                         "/srv/cache/weights.safetensors" Sample.fresh))
      = requests_log Sample.fresh ++ ["https://example.com/weights.safetensors?v=2"].
Proof.
  apply (download_file_ok "https://example.com/weights.safetensors?v=2"
           "/srv/cache/weights.safetensors" Sample.fresh).
  vm_compute. reflexivity.
Defined.

Lemma download_offline_example :
  files_of (fs (snd (download_file "https://example.com/weights.safetensors?v=2"
                       "/srv/cache/weights.safetensors" Scenario.offline)))
    = files_of (fs Scenario.offline) /\
  (requests_log (snd (download_file "https://example.com/weights.safetensors?v=2"
                        "/srv/cache/weights.safetensors" Scenario.offline))
     = requests_log Scenario.offline \/
   requests_log (snd (download_file "https://example.com/weights.safetensors?v=2"
                        "/srv/cache/weights.safetensors" Scenario.offline))
     = requests_log Scenario.offline
       ++ ["https://example.com/weights.safetensors?v=2"]).
Proof.
  apply (download_file_raise "https://example.com/weights.safetensors?v=2"
           "/srv/cache/weights.safetensors" Scenario.offline _ RequestException).
  vm_compute. reflexivity.
Defined.

Lemma cache_directory_example :
  path_exists (fs (snd (find_or_create_cache Sample.fresh)))
    "/srv/ComfyUI/models/huggingface_cache" = true /\
  (fs (snd (find_or_create_cache Sample.fresh)) = fs Sample.fresh \/
   fs (snd (find_or_create_cache Sample.fresh))
     = <["/srv/ComfyUI/models/huggingface_cache" := Dir]> (fs Sample.fresh)) /\
  find_or_create_cache (snd (find_or_create_cache Sample.fresh))
    = (Ok "/srv/ComfyUI/models/huggingface_cache",
       snd (find_or_create_cache Sample.fresh)).
Proof.
  apply (find_or_create_cache_settles Sample.fresh).
  vm_compute. reflexivity.
Defined.


Lemma second_fetch_example :
  get_lora_from_url Sample.hub "https://example.com/weights.safetensors?v=2"
    (snd (get_lora_from_url Sample.hub "https://example.com/weights.safetensors?v=2"
            Sample.fresh))
  = (Ok "/srv/ComfyUI/models/huggingface_cache/general/3a0b19ae124c9a1c3e7d0c0bfe059621.safetensors",
     snd (get_lora_from_url Sample.hub "https://example.com/weights.safetensors?v=2"
            Sample.fresh)).
Proof.
  apply (fetched_once_then_cached Sample.hub
           "https://example.com/weights.safetensors?v=2" _ Sample.fresh).
  - vm_compute. discriminate.
  - vm_compute. reflexivity.
Defined.

Lemma one_request_example :
  (requests_log (snd (get_lora_from_url Sample.hub
                        "https://civitai.com/models/111?modelVersionId=5000"
                        Sample.fresh_with_key))
     = requests_log Sample.fresh_with_key /\
   files_of (fs (snd (get_lora_from_url Sample.hub
                        "https://civitai.com/models/111?modelVersionId=5000"
                        Sample.fresh_with_key)))
     = files_of (fs Sample.fresh_with_key)) \/
  (exists requested p,
     requested_url Sample.fresh_with_key
       "https://civitai.com/models/111?modelVersionId=5000" = Some requested /\
     computed_cache_path Sample.fresh_with_key
       "https://civitai.com/models/111?modelVersionId=5000" = Some p /\
     path_exists (fs Sample.fresh_with_key) p = false /\
     requests_log (snd (get_lora_from_url Sample.hub
                          "https://civitai.com/models/111?modelVersionId=5000"
                          Sample.fresh_with_key))
       = requests_log Sample.fresh_with_key ++ [requested] /\
     (files_of (fs (snd (get_lora_from_url Sample.hub
                           "https://civitai.com/models/111?modelVersionId=5000"
                           Sample.fresh_with_key)))
        = files_of (fs Sample.fresh_with_key) \/
      exists body,
        Ok "/srv/ComfyUI/models/huggingface_cache/civitai/1e1f20f94c4b5cb4a4277cfb8fc2abdf.safetensors"
          = Ok p /\
        http Sample.fresh_with_key requested = Response 200 body /\
        files_of (fs (snd (get_lora_from_url Sample.hub
                             "https://civitai.com/models/111?modelVersionId=5000"
                             Sample.fresh_with_key)))
          = <[p := body]> (files_of (fs Sample.fresh_with_key)))).
Proof.
  apply (one_request_one_file Sample.hub
           "https://civitai.com/models/111?modelVersionId=5000"
           Sample.fresh_with_key).
  - vm_compute. discriminate.
  - vm_compute. reflexivity.
Defined.

Lemma cache_miss_example :
  exists w',
    get_lora_from_url Sample.hub "https://example.org/lora/weights.safetensors?v=2"
      Sample.cached
    = (Ok "/srv/huggingface_cache/general/eea0922a76f642e2077dab6bf7224b26.safetensors",
       w') /\
    fs w' !! "/srv/huggingface_cache/general/eea0922a76f642e2077dab6bf7224b26.safetensors"
      = Some (File "weights") /\
    files_of (fs w')
      = <["/srv/huggingface_cache/general/eea0922a76f642e2077dab6bf7224b26.safetensors"
          := "weights"]> (files_of (fs Sample.cached)) /\
    requests_log w'
      = requests_log Sample.cached
        ++ ["https://example.org/lora/weights.safetensors?v=2"].
Proof.
  apply (cache_miss_downloads Sample.hub
           "https://example.org/lora/weights.safetensors?v=2").
  - vm_compute. reflexivity.
  - vm_compute. reflexivity.
  - vm_compute. reflexivity.
  - vm_compute. reflexivity.
  - right. vm_compute. reflexivity.
  - vm_compute. reflexivity.
Defined.

Lemma returned_path_example :
  path_exists (fs Sample.cached)
    "/srv/huggingface_cache/civitai/1e1f20f94c4b5cb4a4277cfb8fc2abdf.safetensors"
    = true /\
  (provider_of (strip "https://civitai.com/models/111?modelVersionId=5000")
     = MarketplaceHost /\
   os_path_dirname
     "/srv/huggingface_cache/civitai/1e1f20f94c4b5cb4a4277cfb8fc2abdf.safetensors"
     = os_path_join (cache_root Sample.cached) ["civitai"] \/
   provider_of (strip "https://civitai.com/models/111?modelVersionId=5000")
     = GenericHost /\
   os_path_dirname
     "/srv/huggingface_cache/civitai/1e1f20f94c4b5cb4a4277cfb8fc2abdf.safetensors"
     = os_path_join (cache_root Sample.cached) ["general"]).
Proof.
  apply (returned_path_lies_in_cache Sample.hub
           "https://civitai.com/models/111?modelVersionId=5000" _ Sample.cached).
  - vm_compute. discriminate.
  - vm_compute. reflexivity.
Defined.

Lemma bare_version_id_example :
  get_lora_from_url Sample.hub "https://civitai.com/models/111?modelVersionId"
    Sample.fresh
  = (Raise IndexError, Sample.fresh).
Proof.
  apply (version_id_without_value Sample.hub
           "https://civitai.com/models/111?modelVersionId" Sample.fresh).
  - vm_compute. discriminate.
  - vm_compute. reflexivity.
  - vm_compute. reflexivity.
  - vm_compute. reflexivity.
  - vm_compute. reflexivity.
Defined.

Lemma three_subfolders_example :
  huggingface_branch Sample.hub
    "https://huggingface.co/owner/repo/resolve/main/a/b/c/file.safetensors"
    Sample.fresh
  = (let! cache_dir := find_or_create_cache in
     Sample.hub "owner/repo" (Some "a/b/c") "file.safetensors" cache_dir)
      Sample.fresh.
Proof.
  apply (named_host_target Sample.hub "https://" "huggingface.co" "owner" "repo"
           "resolve" "main" "file.safetensors" ["a"; "b"; "c"] Sample.fresh).
  - right. reflexivity.
  - repeat constructor; done.
  - vm_compute. reflexivity.
  - vm_compute. reflexivity.
Defined.

Lemma other_revision_example :
  hf_parse "https://huggingface.co/owner/repo/resolve/v2/sub/file.safetensors"
  = hf_parse "https://huggingface.co/owner/repo/resolve/main/sub/file.safetensors".
Proof.
  apply (revision_is_ignored "https://" "huggingface.co" "owner" "repo"
           "resolve" "main" "resolve" "v2" "file.safetensors" ["sub"]).
  - right. reflexivity.
  - repeat constructor; done.
  - split; done.
  - split; done.
  - vm_compute. reflexivity.
Defined.

Lemma download_flag_example :
  huggingface_branch Sample.hub
    "https://huggingface.co/owner/repo/resolve/main/file.safetensors?download=true"
    Sample.fresh
  = huggingface_branch Sample.hub
      "https://huggingface.co/owner/repo/resolve/main/file.safetensors"
      Sample.fresh.
Proof.
  apply (download_flag_is_cut Sample.hub
           "https://huggingface.co/owner/repo/resolve/main/file.safetensors"
           Sample.fresh).
  vm_compute. reflexivity.
Defined.

Lemma blob_form_example :
  hf_normalize "https://huggingface.co/owner/repo/blob/main/sub/file.safetensors"
    = "https://huggingface.co/owner/repo/resolve/main/sub/file.safetensors" /\
  hf_normalize "https://huggingface.co/owner/repo/resolve/main/sub/file.safetensors"
    = "https://huggingface.co/owner/repo/resolve/main/sub/file.safetensors".
Proof.
  apply (blob_form_agrees "https://huggingface.co/owner/repo"
           "main/sub/file.safetensors").
  - vm_compute. reflexivity.
  - vm_compute. reflexivity.
  - vm_compute. reflexivity.
Defined.

Lemma consistent_after_load_example :
  slot_consistent
    (snd (fst (load_lora_model_only_from_url Sample.hub Sample.load_torch_file
                 Sample.load_lora_for_models new_node "base model"
                 "https://example.com/weights.safetensors?v=2" PrimFloat.one
                 Sample.cached))).
Proof.
  apply (slot_stays_consistent Sample.hub Sample.load_torch_file
           Sample.load_lora_for_models new_node _ "base model"
           "https://example.com/weights.safetensors?v=2" PrimFloat.one
           Sample.cached
           (snd (load_lora_model_only_from_url Sample.hub Sample.load_torch_file
                   Sample.load_lora_for_models new_node "base model"
                   "https://example.com/weights.safetensors?v=2" PrimFloat.one
                   Sample.cached))
           (fst (fst (load_lora_model_only_from_url Sample.hub Sample.load_torch_file
                   Sample.load_lora_for_models new_node "base model"
                   "https://example.com/weights.safetensors?v=2" PrimFloat.one
                   Sample.cached)))).
  - split; intros [x Hx]; discriminate Hx.
  - vm_compute. reflexivity.
Defined.

Lemma warm_node_example :
  load_lora_model_only_from_url Sample.hub Sample.load_torch_file
    Sample.load_lora_for_models Scenario.warm_node "base model"
    "https://example.com/weights.safetensors?v=2" PrimFloat.one Sample.cached
  = load_lora_model_only_from_url Sample.hub Scenario.broken_loader
      Sample.load_lora_for_models Scenario.warm_node "base model"
      "https://example.com/weights.safetensors?v=2" PrimFloat.one Sample.cached
  /\ snd (fst (load_lora_model_only_from_url Sample.hub Sample.load_torch_file
                 Sample.load_lora_for_models Scenario.warm_node "base model"
                 "https://example.com/weights.safetensors?v=2" PrimFloat.one
                 Sample.cached))
     = Scenario.warm_node.
Proof.
  apply (cached_weights_are_reused Sample.hub Sample.load_torch_file
           Scenario.broken_loader Sample.load_lora_for_models Scenario.warm_node
           "base model" "https://example.com/weights.safetensors?v=2"
           "/srv/huggingface_cache/general/3a0b19ae124c9a1c3e7d0c0bfe059621.safetensors"
           "weights" PrimFloat.one Sample.cached Sample.cached).
  - reflexivity.
  - reflexivity.
  - reflexivity.
  - vm_compute. reflexivity.
Defined.

Lemma slot_after_load_example :
  exists p l w1 w2,
    get_lora_from_url Sample.hub "https://example.com/weights.safetensors?v=2"
      Sample.cached = (Ok p, w1) /\
    loaded_lora
      (mkNode (Some "weights")
         (Some "/srv/huggingface_cache/general/3a0b19ae124c9a1c3e7d0c0bfe059621.safetensors"))
      = Some l /\
    loaded_lora_path
      (mkNode (Some "weights")
         (Some "/srv/huggingface_cache/general/3a0b19ae124c9a1c3e7d0c0bfe059621.safetensors"))
      = Some p /\
    Sample.load_lora_for_models "base model" l PrimFloat.one w2
      = (Ok "base model+weights", Sample.cached).
Proof.
  apply (slot_names_resolved_path Sample.hub Sample.load_torch_file
           Sample.load_lora_for_models new_node _ "base model" "base model+weights"
           "https://example.com/weights.safetensors?v=2" PrimFloat.one
           Sample.cached Sample.cached).
  - reflexivity.
  - vm_compute. reflexivity.
Defined.

Lemma failed_reload_example :
  load_lora_model_only_from_url Sample.hub Scenario.broken_loader
    Sample.load_lora_for_models Scenario.stale_node "base model"
    "https://example.com/weights.safetensors?v=2" PrimFloat.one Sample.cached
  = (Raise (Exception "not a safetensors file"), mkNode None None, Sample.cached).
Proof.
  apply (failed_reload_empties_slot Sample.hub Scenario.broken_loader
           Sample.load_lora_for_models Scenario.stale_node "base model"
           "https://example.com/weights.safetensors?v=2"
           "/srv/huggingface_cache/general/3a0b19ae124c9a1c3e7d0c0bfe059621.safetensors"
           "old weights" (Exception "not a safetensors file") PrimFloat.one
           Sample.cached Sample.cached Sample.cached).
  - reflexivity.
  - reflexivity.
  - vm_compute. discriminate.
  - vm_compute. reflexivity.
  - reflexivity.
Defined.
